(** * GlideIM: the client session registry and manager

    A shallow embedding of [im/client/client_manager.go]: the two-level
    registry [clients] / [devices], the [DefaultClientManager] operations
    built on it, and the properties the specification states about them.

    Conventions.
    - Go [int64] values are integers in [Z]; the three atomic counters are
      updated with [add64], which writes out the wrap-around of
      [atomic.AddInt64].
    - A Go [map] is a [gmap]. [range] over a map visits the keys in an order
      the language leaves open, so every loop over a map takes the visiting
      order as an argument.
    - An [IClient] is a pointer to a session object: a [ref] into the store
      [heap] of the [World]. Two slots holding the same [ref] alias the same
      session.
    - A [*devices] is created by [clients.add] only and stored under exactly
      one user key, so the object behind the pointer that [clients.get]
      returned is the value stored under that key: a method called through
      such a pointer is [on_devices], an update of the registry at that key.
    - The manager's methods are run one at a time (no interleaving); the
      mutex of [clients] therefore has no counterpart here. *)

From Stdlib Require Import ZArith Lia.
From stdpp Require Import gmap strings list fin_maps pretty.

Open Scope Z_scope.

(** ** Machine integers *)

Definition wrap64 (z : Z) : Z := (z + 2 ^ 63) mod 2 ^ 64 - 2 ^ 63.

(** [atomic.AddInt64(&x, d)] *)
Definition add64 (x d : Z) : Z := wrap64 (x + d).

Definition int64_range (z : Z) : Prop := - 2 ^ 63 <= z < 2 ^ 63.

(** ** Collaborators that live outside this file's source *)

(** [ErrClientClosed], [ErrClientNotExist]; a Go [error] result is
    [option error], [None] being [nil]. *)
Inductive error := ErrClientClosed | ErrClientNotExist.

#[global] Instance error_eq_dec : EqDecision error.
Proof. solve_decision. Defined.

(** Modelled from the spec: the [message] package ([message.Message],
    [message.NewMessage] and the action constants) is not part of the
    sources at hand. A message carries the origin user, an action and a
    payload that the manager never inspects. *)
Inductive Action :=
  | ActionNotifyKickOut
  | ActionNotifyAccountLogin
  | ActionChat.

Record Message := NewMessage {
  msg_origin : Z;
  msg_action : Action;
  msg_data : string
}.

(** [conn.Connection]: an opaque transport handle. *)
Abbreviation Connection := nat.

(** Modelled from the spec: the session type behind [IClient] ([newClient],
    [SetID], [Run], [EnqueueMessage], [Exit], [Closed]) is not part of the
    sources at hand. A session owns a connection and a mutable identity,
    accepts outbound messages, can be asked to terminate and reports
    whether it is closed. The record keeps what the manager can change or
    observe: the identity last set, whether the dispatch loop was started,
    whether termination was requested, the closed status and the messages
    accepted so far (oldest first). Termination is fire-and-forget: [Exit]
    records the request and leaves the closed status to the session's own
    loop. A closed session drops a message and reports [ErrClientClosed]. *)
Record Client := mkClient {
  c_conn : Connection;
  c_uid : Z;
  c_device : Z;
  c_running : bool;
  c_exit : bool;
  c_closed : bool;
  c_queue : list Message
}.

(** An [IClient] that is not nil: the position of a session object in the
    store. *)
Abbreviation ref := nat.

Definition newClient (conn : Connection) : Client :=
  mkClient conn 0 0 false false false [].

Definition SetID (uid device : Z) (c : Client) : Client :=
  mkClient (c_conn c) uid device (c_running c) (c_exit c) (c_closed c) (c_queue c).

Definition Run (c : Client) : Client :=
  mkClient (c_conn c) (c_uid c) (c_device c) true (c_exit c) (c_closed c) (c_queue c).

Definition Exit (c : Client) : Client :=
  mkClient (c_conn c) (c_uid c) (c_device c) (c_running c) true (c_closed c) (c_queue c).

Definition Closed (c : Client) : bool := c_closed c.

Definition Enqueue (msg : Message) (c : Client) : Client * option error :=
  if c_closed c then (c, Some ErrClientClosed)
  else (mkClient (c_conn c) (c_uid c) (c_device c) (c_running c) (c_exit c)
          (c_closed c) (c_queue c ++ [msg]), None).

(** ** The registry: [devices] and [clients] *)

Module devices.

(** [devices.ds : map[int64]IClient] is a [gmap Z ref]. *)

Definition put (device : Z) (cli : ref) (d : gmap Z ref) : gmap Z ref :=
  <[device := cli]> d.

(** The nil interface value of a missing key is [None]. *)
Definition get (device : Z) (d : gmap Z ref) : option ref := d !! device.

Definition remove (device : Z) (d : gmap Z ref) : gmap Z ref :=
  delete device d.

Definition size (d : gmap Z ref) : nat := size d.

(** [for k, v := range d.ds { f(k, v) }], the keys visited in [order]. *)
Definition foreach {S : Type} (order : list Z) (f : Z -> ref -> S -> S)
    (d : gmap Z ref) (s : S) : S :=
  fold_left (fun acc k => match d !! k with
                          | Some v => f k v acc
                          | None => acc
                          end) order s.

(** The orders [range] may take: every key once. *)
Definition visits (order : list Z) (d : gmap Z ref) : Prop :=
  NoDup order /\ forall k, k ∈ order <-> is_Some (d !! k).

End devices.

Module clients.

(** [clients.clients : map[int64]*devices] is a [gmap Z (gmap Z ref)]. *)

Definition newClients : gmap Z (gmap Z ref) := ∅.

Definition size (g : gmap Z (gmap Z ref)) : nat := size g.

Definition get (uid : Z) (g : gmap Z (gmap Z ref)) : option (gmap Z ref) :=
  match g !! uid with
  | Some cl => if decide (devices.size cl = 0%nat) then None else Some cl
  | None => None
  end.

Definition contains (uid : Z) (g : gmap Z (gmap Z ref)) : bool :=
  bool_decide (is_Some (g !! uid)).

Definition add (uid device : Z) (c : ref) (g : gmap Z (gmap Z ref))
    : gmap Z (gmap Z ref) :=
  match g !! uid with
  | Some cs => <[uid := devices.put device c cs]> g
  | None => <[uid := devices.put device c ∅]> g
  end.

Definition delete (uid device : Z) (g : gmap Z (gmap Z ref))
    : gmap Z (gmap Z ref) :=
  match g !! uid with
  | Some d =>
      let d' := devices.remove device d in
      if decide (devices.size d' = 0%nat) then base.delete uid g
      else <[uid := d']> g
  | None => g
  end.

(** A [devices] method called through the pointer stored under [uid]. *)
Definition on_devices (uid : Z) (f : gmap Z ref -> gmap Z ref)
    (g : gmap Z (gmap Z ref)) : gmap Z (gmap Z ref) :=
  alter f uid g.

(** The object behind the pointer stored under [uid], as it is now. *)
Definition deref (uid : Z) (g : gmap Z (gmap Z ref)) : gmap Z ref :=
  default ∅ (g !! uid).

End clients.

(** ** The manager and its surroundings *)

Record DefaultClientManager := mkManager {
  clients_ : gmap Z (gmap Z ref);
  clientOnline : Z;
  messageSent : Z;
  maxOnline : Z;
  startAt : Z
}.

(** Everything an operation can read or change: the manager, the session
    objects, the identifier generator [uid.GenTemp] (the sequence of
    identifiers it hands out and how many it has handed out) and the
    number of calls made to [statistics.SConnEnter] and
    [statistics.SConnExit]. *)
Record World := mkWorld {
  mgr : DefaultClientManager;
  heap : list Client;
  temp_ids : nat -> Z;
  temp_issued : nat;
  conn_enter : nat;
  conn_exit : nat
}.

Definition with_mgr (f : DefaultClientManager -> DefaultClientManager)
    (w : World) : World :=
  mkWorld (f (mgr w)) (heap w) (temp_ids w) (temp_issued w)
    (conn_enter w) (conn_exit w).

Definition with_heap (f : list Client -> list Client) (w : World) : World :=
  mkWorld (mgr w) (f (heap w)) (temp_ids w) (temp_issued w)
    (conn_enter w) (conn_exit w).

Definition with_clients (f : gmap Z (gmap Z ref) -> gmap Z (gmap Z ref))
    (w : World) : World :=
  with_mgr (fun c => mkManager (f (clients_ c)) (clientOnline c)
                       (messageSent c) (maxOnline c) (startAt c)) w.

Definition with_clientOnline (f : Z -> Z) (w : World) : World :=
  with_mgr (fun c => mkManager (clients_ c) (f (clientOnline c))
                       (messageSent c) (maxOnline c) (startAt c)) w.

Definition with_messageSent (f : Z -> Z) (w : World) : World :=
  with_mgr (fun c => mkManager (clients_ c) (clientOnline c)
                       (f (messageSent c)) (maxOnline c) (startAt c)) w.

Definition with_maxOnline (f : Z -> Z) (w : World) : World :=
  with_mgr (fun c => mkManager (clients_ c) (clientOnline c)
                       (messageSent c) (f (maxOnline c)) (startAt c)) w.

(** The registry of a world. *)
Definition registry (w : World) : gmap Z (gmap Z ref) := clients_ (mgr w).

(** The session in the slot [(uid, device)], if one is registered there. *)
Definition slot (uid device : Z) (w : World) : option ref :=
  registry w !! uid ≫= fun d => devices.get device d.

(** [uid.GenTemp()] *)
Definition GenTemp (w : World) : Z * World :=
  (temp_ids w (temp_issued w),
   mkWorld (mgr w) (heap w) (temp_ids w) (S (temp_issued w))
     (conn_enter w) (conn_exit w)).

Definition SConnEnter (w : World) : World :=
  mkWorld (mgr w) (heap w) (temp_ids w) (temp_issued w)
    (S (conn_enter w)) (conn_exit w).

Definition SConnExit (w : World) : World :=
  mkWorld (mgr w) (heap w) (temp_ids w) (temp_issued w)
    (conn_enter w) (S (conn_exit w)).

(** Method calls on the session behind an [IClient]. A Go interface value
    that is not nil always points at a live object; on a [ref] outside the
    store, which no operation below creates, the calls change nothing. *)
Definition call (r : ref) (f : Client -> Client) (w : World) : World :=
  with_heap (alter f r) w.

Definition is_closed (r : ref) (w : World) : bool :=
  from_option Closed true (heap w !! r).

Definition send (r : ref) (msg : Message) (w : World) : option error * World :=
  match heap w !! r with
  | Some c => (snd (Enqueue msg c), call r (fun c => fst (Enqueue msg c)) w)
  | None => (Some ErrClientClosed, w)
  end.

(** [NewDefaultManager()], [now] being [time.Now().Unix()]. *)
Definition NewDefaultManager (now : Z) : DefaultClientManager :=
  mkManager clients.newClients 0 0 0 now.

(** ** The operations of [DefaultClientManager] *)

(** The outcome of a call that can hit a nil dereference: Go ends the
    program there, so a panic carries no state. *)
Inductive outcome (A : Type) :=
  | Returns (a : A)
  | Panics.
Arguments Returns {A} a.
Arguments Panics {A}.

(** [ClientConnected(conn)]: the new session is the next object of the
    store. *)
Definition ClientConnected (conn : Connection) (w : World) : Z * World :=
  let w := SConnEnter w in
  let '(connUid, w) := GenTemp w in
  let ret := length (heap w) in
  let w := with_heap (fun h => h ++ [newClient conn]) w in
  let w := call ret (SetID connUid 0) w in
  let w := with_clients (clients.add connUid 0 ret) w in
  let w := call ret Run w in
  (connUid, w).

(** [AddClient(uid, cs)], for a [cs] that is not nil. *)
Definition AddClient (uid : Z) (cs : ref) (w : World) : World :=
  let w := with_clients (clients.add uid 0 cs) w in
  with_clientOnline (fun x => add64 x 1) w.

(** The function literal that the broadcast of [EnqueueMessage] hands to
    [foreach]; the variable [err] it assigns and the sessions it reaches
    are the state it is folded over. *)
Definition deliver (device : Z) (msg : Message) (deviceId : Z) (c : ref)
    (st : option error * World) : option error * World :=
  let '(err, w) := st in
  if decide (device ≠ 0 ∧ deviceId ≠ device) then (err, w)
  else if is_closed c w then (Some ErrClientClosed, w)
  else send c msg w.

(** [EnqueueMessage(uid, device, msg)]; [order] is the order in which the
    loop of the broadcast visits the devices. *)
Definition EnqueueMessage (uid device : Z) (msg : Message) (order : list Z)
    (w : World) : option error * World :=
  let w := with_messageSent (fun x => add64 x 1) w in
  match clients.get uid (registry w) with
  | None => (Some ErrClientNotExist, w)
  | Some ds =>
      if decide (devices.size ds = 0%nat) then (Some ErrClientNotExist, w)
      else if decide (device ≠ 0) then
        match devices.get device ds with
        | None => (Some ErrClientNotExist, w)
        | Some d => send d msg w
        end
      else devices.foreach order (deliver device msg) ds (None, w)
  end.

(** Modelled from the spec: the package-level [EnqueueMessage(uid, msg)]
    that [ClientSignIn] calls for the "new device signed in" notification
    is not part of the sources at hand. It sends [msg] to every device of
    [uid] through this manager, that is, [EnqueueMessage(uid, 0, msg)]. *)
Definition EnqueueMessage_pkg (uid : Z) (msg : Message) (order : list Z)
    (w : World) : option error * World :=
  EnqueueMessage uid 0 msg order w.

Definition kick_out_msg : Message :=
  NewMessage 0 ActionNotifyKickOut "Your account is logged in on another device".

Definition account_login_msg (device : Z) : Message :=
  NewMessage 0 ActionNotifyAccountLogin
    ("multi device login, device=" +:+ pretty device).

(** The counter updates that end a sign-in. *)
Definition count_sign_in (w : World) : World :=
  let w := with_clientOnline (fun x => add64 x 1) w in
  let max := maxOnline (mgr w) in
  let current := clientOnline (mgr w) in
  if decide (max < current) then with_maxOnline (fun _ => current) w else w.

(** The conflict resolution of a sign-in: the session [existing] found at
    [(uid_, device)] is given a fresh temporary identity, told that it was
    kicked out, asked to terminate and removed from the device set. *)
Definition evict (uid_ device : Z) (existing : ref) (w : World) : World :=
  let '(t, w) := GenTemp w in
  let w := call existing (SetID t 0) w in
  let w := snd (send existing kick_out_msg w) in
  let w := call existing Exit w in
  with_clients (clients.on_devices uid_ (devices.remove device)) w.

(** The branch of [ClientSignIn] on [logged]: the session [client] takes
    the slot [(uid_, device)], after the conflict resolution and the
    notification of the other devices when the user has devices already.
    [order] is the visiting order of the notification broadcast. *)
Definition take_slot (uid_ device : Z) (client : ref) (order : list Z)
    (w : World) : World :=
  let single := with_clients (clients.add uid_ device client) w in
  match clients.get uid_ (registry w) with
  | Some logged =>
      if decide (0 < devices.size logged)%nat then
        let w :=
          match devices.get device logged with
          | Some existing => evict uid_ device existing w
          | None => w
          end in
        let w :=
          if decide (0 < devices.size (clients.deref uid_ (registry w)))%nat
          then snd (EnqueueMessage_pkg uid_ (account_login_msg device) order w)
          else w in
        with_clients (clients.on_devices uid_ (devices.put device client)) w
      else single
  | None => single
  end.

(** [ClientSignIn(id, uid_, device)]. When the temporary entry has no slot
    0, [client] is nil: the source goes on, stores the nil and panics at
    [client.SetID(uid_, device)]; the program ends there, so the panic is
    reported as soon as [client] is read. *)
Definition ClientSignIn (id uid_ device : Z) (order : list Z) (w : World)
    : outcome (option error * World) :=
  match clients.get id (registry w) with
  | None => Returns (None, w)
  | Some tempDs =>
      if decide (devices.size tempDs = 0%nat) then Returns (None, w) else
      match devices.get 0 tempDs with
      | None => Panics
      | Some client =>
          let w := take_slot uid_ device client order w in
          let w := call client (SetID uid_ device) w in
          let w := with_clients (clients.delete id 0) w in
          Returns (None, count_sign_in w)
      end
  end.

(** [ClientLogout(uid_, device)] *)
Definition ClientLogout (uid_ device : Z) (w : World) : option error * World :=
  match clients.get uid_ (registry w) with
  | None => (None, w)
  | Some cl =>
      if decide (devices.size cl = 0%nat) then (None, w) else
      match devices.get device cl with
      | None => (None, w)
      | Some logDevice =>
          let '(t, w) := GenTemp w in
          let w := call logDevice (SetID t 0) w in
          let w := call logDevice Exit w in
          let w := with_clients
                     (clients.on_devices uid_ (devices.remove device)) w in
          let w := with_clientOnline (fun x => add64 x (-1)) w in
          let w := SConnExit w in
          (None, w)
      end
  end.

(** [GetManagerInfo()] *)
Record ServerInfo := mkServerInfo {
  Online : Z;
  MaxOnline : Z;
  MessageSent : Z;
  StartAt : Z
}.

Definition GetManagerInfo (w : World) : ServerInfo :=
  mkServerInfo (clientOnline (mgr w)) (maxOnline (mgr w))
    (messageSent (mgr w)) (startAt (mgr w)).

(** A world around a fresh manager: no session yet, [ids] the identifiers
    that [uid.GenTemp] will hand out. *)
Definition fresh (now : Z) (ids : nat -> Z) : World :=
  mkWorld (NewDefaultManager now) [] ids 0 0 0.

(** ** Traces of operations *)

Inductive Op :=
  | OpConnected (conn : Connection)
  | OpAddClient (uid : Z) (cs : ref)
  | OpSignIn (id uid device : Z) (order : list Z)
  | OpLogout (uid device : Z).

Definition step (op : Op) (w : World) : outcome World :=
  match op with
  | OpConnected conn => Returns (snd (ClientConnected conn w))
  | OpAddClient uid cs => Returns (AddClient uid cs w)
  | OpSignIn id uid device order =>
      match ClientSignIn id uid device order w with
      | Returns (_, w) => Returns w
      | Panics => Panics
      end
  | OpLogout uid device => Returns (snd (ClientLogout uid device w))
  end.

(** The worlds after each operation of a trace, in order; [None] when an
    operation panics. *)
Fixpoint run (tr : list Op) (w : World) : option (list World) :=
  match tr with
  | [] => Some []
  | op :: tr =>
      match step op w with
      | Returns w' => (fun ws => w' :: ws) <$> run tr w'
      | Panics => None
      end
  end.

(** A sign-in that found its temporary entry. *)
Definition sign_in_found (op : Op) (w : World) : bool :=
  match op with
  | OpSignIn id _ _ _ => bool_decide (is_Some (clients.get id (registry w)))
  | _ => false
  end.

(** A sign-out that found its slot. *)
Definition logout_found (op : Op) (w : World) : bool :=
  match op with
  | OpLogout uid device =>
      bool_decide (is_Some (clients.get uid (registry w) ≫= devices.get device))
  | _ => false
  end.

Definition is_add (op : Op) : bool :=
  match op with OpAddClient _ _ => true | _ => false end.

(** [count p tr w]: how many operations of [tr], run from [w], satisfy [p]
    in the world they start from. *)
Fixpoint count (p : Op -> World -> bool) (tr : list Op) (w : World) : Z :=
  match tr with
  | [] => 0
  | op :: tr =>
      (if p op w then 1 else 0) +
      match step op w with
      | Returns w' => count p tr w'
      | Panics => 0
      end
  end.

(** The largest [online] among the worlds [ws], and [start]. *)
Definition max_online (start : Z) (ws : list World) : Z :=
  foldr (fun w m => Z.max (clientOnline (mgr w)) m) start ws.

(** The world a trace ends in: the last of the worlds it went through, or
    the world it started from. *)
Definition final (w : World) (ws : list World) : World := default w (last ws).

(** The counters that P4 pairs: sign-ins that found their temporary entry,
    direct registrations and sign-outs that found their slot. *)
Definition sign_ins (tr : list Op) (w : World) : Z := count sign_in_found tr w.
Definition registrations (tr : list Op) (w : World) : Z :=
  count (fun op _ => is_add op) tr w.
Definition sign_outs (tr : list Op) (w : World) : Z := count logout_found tr w.

(** ** The other methods of the manager, and its callers *)

(** [isOnline(uid)] *)
Definition isOnline (uid : Z) (w : World) : bool :=
  match clients.get uid (registry w) with
  | None => false
  | Some ds => bool_decide (0 < devices.size ds)%nat
  end.

(** [isDeviceOnline(uid, device)] *)
Definition isDeviceOnline (uid device : Z) (w : World) : bool :=
  match clients.get uid (registry w) with
  | None => false
  | Some ds => bool_decide (is_Some (devices.get device ds))
  end.

(** Modelled from the spec: the type [Info] and the method [GetInfo] of a
    session are not part of the sources at hand. A snapshot carries the
    identity of the session. *)
Record Info := mkInfo {
  info_uid : Z;
  info_device : Z
}.

Definition GetInfo (c : Client) : Info := mkInfo (c_uid c) (c_device c).

(** The inner loop of [getClient]: [range] over the devices, left at the
    first one. [inner] is the visiting order; the result is the session
    visited first, if the device set has one. *)
Definition first_device (inner : list Z) (ds : gmap Z ref) : option ref :=
  head (omap (fun k => ds !! k) inner).

(** The outer loop of [getClient], from the user [outer] starts with:
    [ct] and [ret] are the loop's variables, [break] returns [ret].
    [ct] counts entries of the map, far below the range of an [int]. *)
Fixpoint getClient_loop (IsTempId : Z -> bool) (count : Z)
    (inner : Z -> list Z) (w : World) (outer : list Z) (ct : Z)
    (ret : list Info) : list Info :=
  match outer with
  | [] => ret
  | id :: outer =>
      match registry w !! id with
      | None => getClient_loop IsTempId count inner w outer ct ret
      | Some ds =>
          if IsTempId id
          then getClient_loop IsTempId count inner w outer ct ret
          else
            let ret :=
              match first_device (inner id) ds ≫= fun d => heap w !! d with
              | Some c => ret ++ [GetInfo c]
              | None => ret
              end in
            let ct := ct + 1 in
            if decide (ct >= count) then ret
            else getClient_loop IsTempId count inner w outer ct ret
      end
  end.

(** [getClient(count)]. [IsTempId] is [uid.IsTempId], which is not part of
    the sources at hand; [outer] is the order in which the users are
    visited and [inner id] the order for the devices of the user [id]. *)
Definition getClient (IsTempId : Z -> bool) (count : Z) (outer : list Z)
    (inner : Z -> list Z) (w : World) : list Info :=
  getClient_loop IsTempId count inner w outer 0 [].

(** [im/api/test.go]: the requests of [TestApi], with [client.Manager]
    being a [DefaultClientManager]. Of [RequestInfo] the handlers read the
    field [Uid] only. *)
Record TestLoginRequest := mkTestLoginRequest {
  Uid : Z;
  Device : Z
}.

Definition TestLogin (info_Uid : Z) (request : TestLoginRequest)
    (order : list Z) (w : World) : outcome (option error * World) :=
  match ClientSignIn info_Uid (Uid request) (Device request) order w with
  | Returns (_, w) => Returns (None, w)
  | Panics => Panics
  end.

Definition TestSignOut (info_Uid : Z) (w : World) : option error * World :=
  (None, snd (ClientLogout info_Uid 2 w)).

(** The session in the slot [(uid, device)] of a registry. *)
Definition slot_of (g : gmap Z (gmap Z ref)) (uid device : Z) : option ref :=
  g !! uid ≫= devices.get device.

(** Every registered session carries the identity of its slot. *)
Definition consistent (w : World) : Prop :=
  forall uid device s,
    slot uid device w = Some s ->
    exists c, heap w !! s = Some c /\ c_uid c = uid /\ c_device c = device.

Definition is_connect (op : Op) : bool :=
  match op with OpConnected _ => true | _ => false end.

Definition is_logout (op : Op) : bool :=
  match op with OpLogout _ _ => true | _ => false end.

(** ** Predicates of the specification *)

(** The user has no registered device. *)
Definition no_devices (uid : Z) (w : World) : Prop :=
  forall device, slot uid device w = None.

(** I5: no user entry of the registry maps to an empty device set. *)
Definition no_empty_devices (g : gmap Z (gmap Z ref)) : Prop :=
  forall uid ds, g !! uid = Some ds -> ds ≠ ∅.

(** I2: the entry of a temporary identifier has one slot, keyed 0. *)
Definition temporary_entry (id : Z) (c : ref) (w : World) : Prop :=
  registry w !! id = Some {[ 0 := c ]}.

(** [only_heap w w']: the worlds differ in the session objects at most. *)
Definition only_heap (w w' : World) : Prop :=
  w' = with_heap (fun _ => heap w') w.

(** What the manager sets on a session: the identity and the request to
    terminate. *)
Definition status (c : Client) : Z * Z * bool := (c_uid c, c_device c, c_exit c).

(** [same_status w w']: no session changed identity or was asked to
    terminate between [w] and [w']. *)
Definition same_status (w w' : World) : Prop :=
  forall r, status <$> heap w' !! r = status <$> heap w !! r.

(** The session [r] has accepted the message [msg]. *)
Definition received (msg : Message) (r : ref) (w : World) : Prop :=
  exists c, heap w !! r = Some c /\ msg ∈ c_queue c.

(** The session's own loop noticing that its connection is gone: the one
    change of a session that does not come from the manager. *)
Definition connection_lost (r : ref) (w : World) : World :=
  call r (fun c => mkClient (c_conn c) (c_uid c) (c_device c) (c_running c)
                     (c_exit c) true (c_queue c)) w.

(** ** Worlds used as examples *)

(** A generator that hands out 1000000, 1000001, ... *)
Definition example_ids (n : nat) : Z := Z.of_nat n + 1000000.

Definition w_fresh : World := fresh 0 example_ids.

(** One connection, holding the temporary identifier 1000000. *)
Definition w_connected : World := snd (ClientConnected 7%nat w_fresh).

(** Two connections signed in as the devices 1 and 2 of user 5001. *)
Definition w_two_devices : World :=
  let w := snd (ClientConnected 7%nat w_fresh) in
  let w := snd (ClientConnected 8%nat w) in
  let w := match ClientSignIn 1000000 5001 1 [] w with
           | Returns (_, w) => w
           | Panics => w
           end in
  match ClientSignIn 1000001 5001 2 [1] w with
  | Returns (_, w) => w
  | Panics => w
  end.

(** The same, after the connection of device 1 was lost. *)
Definition w_device1_lost : World := connection_lost 0%nat w_two_devices.

(** One connection signed in as device 1 of user 5001. *)
Definition w_signed_in : World :=
  match ClientSignIn 1000000 5001 1 [] w_connected with
  | Returns (_, w) => w
  | Panics => w_connected
  end.

(** The same, and a second connection that holds the temporary identifier
    1000001 and has not signed in yet. *)
Definition w_conflict : World := snd (ClientConnected 8%nat w_signed_in).

(** The connection of [w_connected] after signing in with its own temporary
    identifier as user and device 0. *)
Definition w_self_signed : World :=
  match ClientSignIn 1000000 1000000 0 [] w_connected with
  | Returns (_, w) => w
  | Panics => w_connected
  end.

(** A fresh manager next to one session object that its owner is about to
    register with [AddClient]. *)
Definition w_session : World := with_heap (fun _ => [newClient 9%nat]) w_fresh.

(** Two connections that sign in as the devices 1 and 2 of user 5001; the
    first signs out, twice. *)
Definition example_trace : list Op :=
  [OpConnected 7%nat; OpSignIn 1000000 5001 1 [];
   OpConnected 8%nat; OpSignIn 1000001 5001 2 [1];
   OpLogout 5001 1; OpLogout 5001 1].

Definition example_worlds : list World :=
  default [] (run example_trace w_fresh).

(** One connection that signs in as device 1 of user 5001. *)
Definition login_trace : list Op :=
  [OpConnected 7%nat; OpSignIn 1000000 5001 1 []].

Definition login_worlds : list World := default [] (run login_trace w_fresh).

(** The devices of user 5001 in [w_two_devices]. *)
Definition example_devices : gmap Z nat := <[1 := 0%nat]> (<[2 := 1%nat]> ∅).

(** Two connections, holding the temporary identifiers 1000000 and
    1000001; the second signs in with the first one's temporary identifier
    as user, on device 3. *)
Definition w_shared_temp : World :=
  let w := snd (ClientConnected 7%nat w_fresh) in
  let w := snd (ClientConnected 8%nat w) in
  match ClientSignIn 1000001 1000000 3 [0] w with
  | Returns (_, w) => w
  | Panics => w
  end.

(** The same, after the first connection signed in as device 1 of user
    5001. *)
Definition w_shared_temp_signed : World :=
  match ClientSignIn 1000000 5001 1 [] w_shared_temp with
  | Returns (_, w) => w
  | Panics => w_shared_temp
  end.

Definition hello : Message := NewMessage 5002 ActionChat "hello".

(** ** Basic facts *)

Lemma wrap64_id z : int64_range z -> wrap64 z = z.
Proof.
  unfold int64_range, wrap64. intros H.
  rewrite Z.mod_small; lia.
Qed.

Lemma wrap64_range z : int64_range (wrap64 z).
Proof.
  unfold int64_range, wrap64.
  pose proof (Z.mod_pos_bound (z + 2 ^ 63) (2 ^ 64)). lia.
Qed.

Lemma wrap64_add_l a b : wrap64 (wrap64 a + b) = wrap64 (a + b).
Proof.
  unfold wrap64. f_equal.
  replace (((a + 2 ^ 63) mod 2 ^ 64 - 2 ^ 63 + b) + 2 ^ 63)
    with ((a + 2 ^ 63) mod 2 ^ 64 + b) by lia.
  rewrite Zplus_mod_idemp_l. f_equal. lia.
Qed.

Lemma get_unfold uid g :
  clients.get uid g
  = match g !! uid with
    | Some cl => if decide (cl = ∅) then None else Some cl
    | None => None
    end.
Proof.
  unfold clients.get, devices.size. destruct (g !! uid) as [cl|]; [|done].
  destruct (decide (size cl = 0%nat)) as [Hs|Hs], (decide (cl = ∅)) as [He|He];
    try done.
  - by apply map_size_empty_iff in Hs.
  - by apply map_size_empty_iff in He.
Qed.

Lemma get_Some uid g ds :
  clients.get uid g = Some ds <-> g !! uid = Some ds /\ ds ≠ ∅.
Proof.
  rewrite get_unfold. destruct (g !! uid) as [cl|].
  - case_decide; split; intros Hx; try done.
    + destruct Hx as [[= ->] Hne]. done.
    + by injection Hx as ->.
    + by destruct Hx as [-> _].
  - split; [done | by intros [? _]].
Qed.

Lemma get_None uid g :
  clients.get uid g = None <-> g !! uid = None \/ g !! uid = Some ∅.
Proof.
  rewrite get_unfold. destruct (g !! uid) as [cl|].
  - case_decide; split; intros Hx; try done.
    + right. by subst.
    + destruct Hx as [Hx|[= Hx]]; done.
  - split; [by left | done].
Qed.

Lemma get_size uid g ds : clients.get uid g = Some ds -> devices.size ds ≠ 0%nat.
Proof.
  intros [_ H]%get_Some. by apply map_size_non_empty_iff.
Qed.

Lemma slot_get uid device r w :
  slot uid device w = Some r ->
  exists ds, clients.get uid (registry w) = Some ds /\ ds !! device = Some r.
Proof.
  unfold slot, devices.get. intros H.
  destruct (registry w !! uid) as [ds|] eqn:E; simplify_eq/=.
  exists ds. split; [|done].
  apply get_Some. split; [done|]. intros ->. by rewrite lookup_empty in H.
Qed.

Lemma no_devices_get uid w :
  no_devices uid w <-> clients.get uid (registry w) = None.
Proof.
  rewrite get_None. unfold no_devices, slot, devices.get. split.
  - intros H. destruct (registry w !! uid) as [ds|] eqn:E; [|by left].
    right. f_equal. apply map_empty. intros i. apply (H i).
  - intros [-> | ->]; intros device; simpl; [done|apply lookup_empty].
Qed.

(** ** What delivering a message can change *)

Lemma only_heap_refl w : only_heap w w.
Proof. by destruct w. Qed.

Lemma only_heap_trans w1 w2 w3 :
  only_heap w1 w2 -> only_heap w2 w3 -> only_heap w1 w3.
Proof.
  unfold only_heap. intros H12 H23. rewrite H23 at 1. by rewrite H12.
Qed.

Lemma call_only_heap r f w : only_heap w (call r f w).
Proof. done. Qed.

Lemma send_only_heap r msg w : only_heap w (send r msg w).2.
Proof.
  unfold send. destruct (heap w !! r); simpl;
    [apply call_only_heap | apply only_heap_refl].
Qed.

Lemma send_err r msg w : (send r msg w).1 ≠ Some ErrClientNotExist.
Proof.
  unfold send, Enqueue. destruct (heap w !! r) as [c|]; simpl; [|done].
  by destruct (c_closed c).
Qed.

Lemma deliver_only_heap device msg k c e w :
  only_heap w (deliver device msg k c (e, w)).2.
Proof.
  unfold deliver. case_decide; [apply only_heap_refl|].
  destruct (is_closed c w); [apply only_heap_refl | apply send_only_heap].
Qed.

Lemma deliver_err device msg k c e w :
  e ≠ Some ErrClientNotExist ->
  (deliver device msg k c (e, w)).1 ≠ Some ErrClientNotExist.
Proof.
  intros He. unfold deliver. case_decide; simpl; [done|].
  destruct (is_closed c w); simpl; [done | apply send_err].
Qed.

Lemma foreach_deliver order device msg ds e w :
  e ≠ Some ErrClientNotExist ->
  let r := devices.foreach order (deliver device msg) ds (e, w) in
  only_heap w r.2 /\ r.1 ≠ Some ErrClientNotExist.
Proof.
  unfold devices.foreach. revert e w.
  induction order as [|k order IH]; intros e w He; cbn [fold_left].
  - split; [apply only_heap_refl | done].
  - destruct (ds !! k) as [c|]; [|by apply IH].
    pose proof (deliver_only_heap device msg k c e w) as Hw.
    pose proof (deliver_err device msg k c e w He) as He'.
    destruct (deliver device msg k c (e, w)) as [e' w'].
    destruct (IH e' w' He') as [IHw IHe]. split; [|exact IHe].
    eapply only_heap_trans; [exact Hw | exact IHw].
Qed.

(** Whatever the outcome, a call changes the counter [messageSent] and the
    session objects at most. *)
Lemma EnqueueMessage_frame uid device msg order w :
  only_heap (with_messageSent (fun x => add64 x 1) w)
    (EnqueueMessage uid device msg order w).2.
Proof.
  unfold EnqueueMessage.
  destruct (clients.get uid _) as [ds|]; [|apply only_heap_refl].
  case_decide; [apply only_heap_refl|].
  case_decide.
  - destruct (devices.get device ds);
      [apply send_only_heap | apply only_heap_refl].
  - by apply foreach_deliver.
Qed.

Lemma EnqueueMessage_mgr uid device msg order w :
  mgr (EnqueueMessage uid device msg order w).2
  = mgr (with_messageSent (fun x => add64 x 1) w).
Proof.
  pose proof (EnqueueMessage_frame uid device msg order w) as H.
  unfold only_heap in H. by rewrite H.
Qed.

(** A call that reports [ErrClientNotExist] reached no session. *)
Lemma EnqueueMessage_reached_nobody uid device msg order w :
  (EnqueueMessage uid device msg order w).1 = Some ErrClientNotExist ->
  (EnqueueMessage uid device msg order w).2
  = with_messageSent (fun x => add64 x 1) w.
Proof.
  unfold EnqueueMessage.
  destruct (clients.get uid _) as [ds|]; [|done].
  case_decide; [done|].
  case_decide.
  - destruct (devices.get device ds) as [d|]; [|done].
    intros He. by apply send_err in He.
  - intros He. by apply foreach_deliver in He.
Qed.

(** ** Sign-in with an unknown temporary identifier *)

(** C5: when [tempId] does not resolve to a registered entry,
    [ClientSignIn(tempId, uid, device)] returns no error and changes
    nothing: the registry, [online], [maxOnline] and everything else in the
    world are as before the call. *)
Theorem ClientSignIn_unknown_temp id uid_ device order w :
  clients.get id (registry w) = None ->
  ClientSignIn id uid_ device order w = Returns (None, w).
Proof.
  intros H. unfold ClientSignIn. by rewrite H.
Qed.

Lemma ClientSignIn_unknown_temp_witness :
  clients.get 1000001 (registry w_connected) = None /\
  ClientSignIn 1000001 5001 1 [] w_connected = Returns (None, w_connected).
Proof.
  assert (H : clients.get 1000001 (registry w_connected) = None)
    by (vm_compute; reflexivity).
  split; [exact H|].
  apply (ClientSignIn_unknown_temp 1000001 5001 1 [] w_connected H).
Defined.

(** ** Delivery to users and devices that are not registered *)

(** C4: for a user with no registered device, and for a non-zero device
    that is not registered under the user, [EnqueueMessage] returns
    [ErrClientNotExist] and delivers to no session: the call counts the
    attempt in [messageSent] and changes nothing else. *)
Theorem EnqueueMessage_not_exist uid device msg order w :
  no_devices uid w \/ (device ≠ 0 /\ slot uid device w = None) ->
  EnqueueMessage uid device msg order w
  = (Some ErrClientNotExist, with_messageSent (fun x => add64 x 1) w)
  /\ heap (EnqueueMessage uid device msg order w).2 = heap w.
Proof.
  intros H.
  assert (EnqueueMessage uid device msg order w
          = (Some ErrClientNotExist, with_messageSent (fun x => add64 x 1) w))
    as ->; [|done].
  unfold EnqueueMessage. cbv zeta.
  change (registry (with_messageSent (fun x => add64 x 1) w)) with (registry w).
  destruct (clients.get uid (registry w)) as [ds|] eqn:Hget; [|done].
  case_decide; [done|].
  destruct H as [H | [Hdev Hslot]].
  - apply no_devices_get in H. congruence.
  - rewrite decide_True by done.
    apply get_Some in Hget as [Hds _].
    unfold slot in Hslot. rewrite Hds in Hslot. simpl in Hslot.
    by rewrite Hslot.
Qed.

Lemma EnqueueMessage_not_exist_witness :
  (2 ≠ 0 /\ slot 5001 2 w_connected = None) /\
  (EnqueueMessage 5001 2 hello [] w_connected).1 = Some ErrClientNotExist /\
  heap (EnqueueMessage 5001 2 hello [] w_connected).2 = heap w_connected.
Proof.
  assert (H : 2 ≠ 0 /\ slot 5001 2 w_connected = None)
    by (split; [lia | vm_compute; reflexivity]).
  split; [exact H|].
  destruct (EnqueueMessage_not_exist 5001 2 hello [] w_connected (or_intror H))
    as [-> Hh].
  split; [reflexivity | exact Hh].
Defined.

(** ** The counter of enqueue attempts *)

(** C9: every call to [EnqueueMessage] adds one to [messageSent], whatever
    it returns, and leaves the registry, [online] and [maxOnline] as they
    were; a call that returns [ErrClientNotExist] changes nothing but
    [messageSent]. *)
Theorem EnqueueMessage_counts uid device msg order w :
  let r := EnqueueMessage uid device msg order w in
  messageSent (mgr r.2) = add64 (messageSent (mgr w)) 1
  /\ (int64_range (messageSent (mgr w) + 1) ->
      messageSent (mgr r.2) = messageSent (mgr w) + 1)
  /\ registry r.2 = registry w
  /\ clientOnline (mgr r.2) = clientOnline (mgr w)
  /\ maxOnline (mgr r.2) = maxOnline (mgr w)
  /\ (r.1 = Some ErrClientNotExist ->
      r.2 = with_messageSent (fun x => add64 x 1) w /\ heap r.2 = heap w).
Proof.
  intros r. subst r. unfold registry.
  rewrite EnqueueMessage_mgr. simpl.
  repeat split; try done.
  - intros Hr. unfold add64. by apply wrap64_id.
  - by apply EnqueueMessage_reached_nobody.
  - apply EnqueueMessage_reached_nobody in H. by rewrite H.
Qed.

Lemma EnqueueMessage_counts_witness :
  messageSent (mgr (EnqueueMessage 5001 0 hello [] w_connected).2) = 1
  /\ heap (EnqueueMessage 5001 0 hello [] w_connected).2 = heap w_connected.
Proof.
  destruct (EnqueueMessage_counts 5001 0 hello [] w_connected)
    as (_ & Hone & _ & _ & _ & Hne).
  split.
  - apply Hone. vm_compute. split; easy.
  - apply Hne. vm_compute. reflexivity.
Defined.

(** ** The registry after [add], [delete] and an update through a pointer *)

Lemma add_lookup uid device c g :
  clients.add uid device c g !! uid
  = Some (<[device := c]> (clients.deref uid g)).
Proof.
  unfold clients.add, clients.deref, devices.put.
  destruct (g !! uid); simpl; by rewrite lookup_insert_eq.
Qed.

Lemma add_lookup_ne uid uid' device c g :
  uid ≠ uid' -> clients.add uid device c g !! uid' = g !! uid'.
Proof.
  intros Hne. unfold clients.add.
  destruct (g !! uid); by rewrite lookup_insert_ne.
Qed.

Lemma delete_lookup uid device g :
  clients.delete uid device g !! uid
  = g !! uid ≫= fun d =>
      if decide (delete device d = ∅) then None else Some (delete device d).
Proof.
  unfold clients.delete, devices.remove, devices.size.
  destruct (g !! uid) as [d|] eqn:E; simpl; [|done].
  destruct (decide (size (delete device d) = 0%nat)) as [Hs|Hs],
           (decide (delete device d = ∅)) as [He|He].
  - by rewrite lookup_delete_eq.
  - by apply map_size_empty_iff in Hs.
  - by apply map_size_empty_iff in He.
  - by rewrite lookup_insert_eq.
Qed.

Lemma delete_lookup_ne uid uid' device g :
  uid ≠ uid' -> clients.delete uid device g !! uid' = g !! uid'.
Proof.
  intros Hne. unfold clients.delete.
  destruct (g !! uid); [|done].
  case_decide; [by rewrite lookup_delete_ne | by rewrite lookup_insert_ne].
Qed.

Lemma on_devices_lookup uid f g :
  clients.on_devices uid f g !! uid = f <$> g !! uid.
Proof. apply lookup_alter_eq. Qed.

Lemma on_devices_lookup_ne uid uid' f g :
  uid ≠ uid' -> clients.on_devices uid f g !! uid' = g !! uid'.
Proof. apply lookup_alter_ne. Qed.

(** ** Sign-out *)

(** The world after a sign-out that found the session [s] in its slot. *)
Lemma ClientLogout_found uid device s w :
  slot uid device w = Some s ->
  ClientLogout uid device w
  = (None,
     SConnExit
       (with_clientOnline (fun x => add64 x (-1))
          (with_clients (clients.on_devices uid (devices.remove device))
             (call s Exit
                (call s (SetID (temp_ids w (temp_issued w)) 0)
                   (GenTemp w).2))))).
Proof.
  intros (ds & Hget & Hs)%slot_get. unfold ClientLogout. rewrite Hget.
  rewrite decide_False by (by eapply get_size).
  unfold devices.get. by rewrite Hs.
Qed.

(** A sign-out that does not find its slot changes nothing. *)
Lemma ClientLogout_not_found uid device w :
  slot uid device w = None -> ClientLogout uid device w = (None, w).
Proof.
  intros Hs. unfold ClientLogout.
  destruct (clients.get uid (registry w)) as [ds|] eqn:Hget; [|done].
  case_decide; [done|].
  apply get_Some in Hget as [Hds _].
  unfold slot in Hs. rewrite Hds in Hs. simpl in Hs. by rewrite Hs.
Qed.

Lemma ClientLogout_slot_gone uid device s w :
  slot uid device w = Some s -> slot uid device (ClientLogout uid device w).2 = None.
Proof.
  intros Hs. rewrite (ClientLogout_found _ _ _ _ Hs). unfold slot, registry.
  simpl. rewrite on_devices_lookup.
  destruct (clients_ (mgr w) !! uid) as [ds|]; simpl; [|done].
  apply lookup_delete_eq.
Qed.

Lemma ClientLogout_online uid device s w :
  slot uid device w = Some s ->
  clientOnline (mgr (ClientLogout uid device w).2)
  = add64 (clientOnline (mgr w)) (-1).
Proof. intros Hs. by rewrite (ClientLogout_found _ _ _ _ Hs). Qed.

Lemma ClientLogout_session uid device s c w :
  slot uid device w = Some s -> heap w !! s = Some c ->
  heap (ClientLogout uid device w).2 !! s
  = Some (Exit (SetID (temp_ids w (temp_issued w)) 0 c)).
Proof.
  intros Hs Hc. rewrite (ClientLogout_found _ _ _ _ Hs). simpl.
  rewrite !list_lookup_alter_eq. by rewrite Hc.
Qed.

(** C6: for a registered slot, two calls of [ClientLogout] in a row both
    return no error; the first takes one from [online], the second changes
    nothing at all, so [online] is not decremented twice. *)
Theorem ClientLogout_twice uid device s w :
  slot uid device w = Some s ->
  let r1 := ClientLogout uid device w in
  let r2 := ClientLogout uid device r1.2 in
  r1.1 = None /\ r2.1 = None
  /\ clientOnline (mgr r1.2) = add64 (clientOnline (mgr w)) (-1)
  /\ (int64_range (clientOnline (mgr w) - 1) ->
      clientOnline (mgr r1.2) = clientOnline (mgr w) - 1)
  /\ slot uid device r1.2 = None
  /\ r2.2 = r1.2.
Proof.
  intros Hs r1 r2.
  assert (Hgone : slot uid device r1.2 = None)
    by (by eapply ClientLogout_slot_gone).
  assert (Hr2 : r2 = (None, r1.2))
    by (subst r2; by apply ClientLogout_not_found).
  rewrite Hr2. subst r1. rewrite (ClientLogout_found _ _ _ _ Hs) in *.
  simpl. repeat split; try done.
  intros Hr. unfold add64. apply wrap64_id.
  by replace (clientOnline (mgr w) + -1) with (clientOnline (mgr w) - 1) by lia.
Qed.

Lemma ClientLogout_twice_witness :
  slot 1000000 0 w_connected = Some 0%nat /\
  clientOnline (mgr (ClientLogout 1000000 0 w_connected).2) = -1 /\
  (ClientLogout 1000000 0 (ClientLogout 1000000 0 w_connected).2).2
  = (ClientLogout 1000000 0 w_connected).2.
Proof.
  assert (H : slot 1000000 0 w_connected = Some 0%nat)
    by (vm_compute; reflexivity).
  split; [exact H|].
  destruct (ClientLogout_twice 1000000 0 0%nat w_connected H)
    as (_ & _ & _ & Hone & _ & Hsame).
  split; [|exact Hsame].
  rewrite Hone; [reflexivity|]. vm_compute. split; easy.
Defined.

(** ** Connecting *)

Lemma ClientConnected_id conn w :
  (ClientConnected conn w).1 = temp_ids w (temp_issued w).
Proof. done. Qed.

Lemma ClientConnected_mgr conn w :
  mgr (ClientConnected conn w).2
  = mgr (with_clients
           (clients.add (temp_ids w (temp_issued w)) 0 (length (heap w))) w).
Proof. done. Qed.

Lemma ClientConnected_slot conn w :
  slot (ClientConnected conn w).1 0 (ClientConnected conn w).2
  = Some (length (heap w)).
Proof.
  unfold slot, registry. rewrite ClientConnected_mgr, ClientConnected_id.
  simpl. rewrite add_lookup. simpl. apply lookup_insert_eq.
Qed.

Lemma ClientConnected_session conn w :
  heap (ClientConnected conn w).2 !! length (heap w)
  = Some (Run (SetID (temp_ids w (temp_issued w)) 0 (newClient conn))).
Proof.
  simpl. rewrite !list_lookup_alter_eq.
  by rewrite list_lookup_middle.
Qed.

(** C10: [ClientLogout] does not tell temporary from permanent
    identifiers. [ClientConnected] registers the new session under the
    temporary identifier it returns without touching [online]; a
    [ClientLogout] of that identifier with device 0 finds the slot, removes
    the session from it, requests the session's termination and takes one
    from [online]. On a fresh manager the trace of these two calls ends
    with [online] at -1. *)
Theorem ClientLogout_temporary conn w :
  let T := (ClientConnected conn w).1 in
  let w1 := (ClientConnected conn w).2 in
  let s := length (heap w) in
  let r := ClientLogout T 0 w1 in
  clientOnline (mgr w1) = clientOnline (mgr w)
  /\ slot T 0 w1 = Some s
  /\ r.1 = None
  /\ slot T 0 r.2 = None
  /\ c_exit <$> heap r.2 !! s = Some true
  /\ clientOnline (mgr r.2) = add64 (clientOnline (mgr w)) (-1)
  /\ forall now ids,
       (fun ws => clientOnline (mgr ws)) <$>
         (run [OpConnected conn; OpLogout (ids 0%nat) 0] (fresh now ids)
            ≫= last)
       = Some (-1).
Proof.
  intros T w1 s r.
  pose proof (ClientConnected_slot conn w) as Hslot.
  pose proof (ClientConnected_session conn w) as Hh.
  fold T w1 s in Hslot, Hh.
  assert (Hon : clientOnline (mgr w1) = clientOnline (mgr w)) by done.
  subst r. clearbody w1 T s.
  split; [done|]. split; [done|].
  split; [by rewrite (ClientLogout_found _ _ _ _ Hslot)|].
  split; [by eapply ClientLogout_slot_gone|].
  split; [by rewrite (ClientLogout_session _ _ _ _ _ Hslot Hh)|].
  split; [by rewrite (ClientLogout_online _ _ _ _ Hslot), Hon|].
  intros now ids. cbn [run step].
  pose proof (ClientConnected_slot conn (fresh now ids)) as Hf.
  rewrite ClientConnected_id in Hf. change (temp_ids (fresh now ids)
    (temp_issued (fresh now ids))) with (ids 0%nat) in Hf.
  destruct (ClientConnected conn (fresh now ids)) as [T' w'] eqn:Hc.
  assert (clientOnline (mgr w') = 0) as Hz
    by (by replace w' with (ClientConnected conn (fresh now ids)).2
          by (by rewrite Hc)).
  cbn [snd] in *. simpl. f_equal.
  by rewrite (ClientLogout_online _ _ _ _ Hf), Hz.
Qed.

(** ** Sign-in *)

Lemma only_heap_mgr w w' : only_heap w w' -> mgr w' = mgr w.
Proof. unfold only_heap. intros ->. done. Qed.

Lemma send_mgr r msg w : mgr (send r msg w).2 = mgr w.
Proof. apply only_heap_mgr, send_only_heap. Qed.

Lemma add_eq uid device c g :
  clients.add uid device c g
  = <[uid := <[device := c]> (clients.deref uid g)]> g.
Proof.
  unfold clients.add, clients.deref, devices.put. by destruct (g !! uid).
Qed.

Lemma on_devices_eq uid f g ds :
  g !! uid = Some ds -> clients.on_devices uid f g = <[uid := f ds]> g.
Proof.
  intros Hds. apply map_eq. intros k. unfold clients.on_devices.
  destruct (decide (k = uid)) as [->|Hne].
  - by rewrite lookup_alter_eq, lookup_insert_eq, Hds.
  - by rewrite lookup_alter_ne, lookup_insert_ne.
Qed.

Lemma evict_registry uid_ device existing w :
  registry (evict uid_ device existing w)
  = clients.on_devices uid_ (devices.remove device) (registry w).
Proof.
  unfold evict, registry. simpl. by rewrite send_mgr.
Qed.

Lemma evict_counters uid_ device existing w :
  clientOnline (mgr (evict uid_ device existing w)) = clientOnline (mgr w)
  /\ maxOnline (mgr (evict uid_ device existing w)) = maxOnline (mgr w).
Proof.
  unfold evict. simpl. by rewrite send_mgr.
Qed.

(** Whichever branch is taken, the registry afterwards is the one before
    with [client] written into the slot [(uid_, device)]. *)
Lemma take_slot_registry uid_ device client order w :
  registry (take_slot uid_ device client order w)
  = <[uid_ := <[device := client]> (clients.deref uid_ (registry w))]>
      (registry w).
Proof.
  unfold take_slot.
  destruct (clients.get uid_ (registry w)) as [logged|] eqn:Hget;
    [|apply add_eq].
  case_decide; [|apply add_eq].
  apply get_Some in Hget as [Hl _].
  set (w1 := match devices.get device logged with
             | Some existing => evict uid_ device existing w
             | None => w
             end).
  assert (Hw1 : registry w1
                = <[uid_ := match devices.get device logged with
                            | Some _ => devices.remove device logged
                            | None => logged
                            end]> (registry w)).
  { subst w1. destruct (devices.get device logged).
    - rewrite evict_registry. by apply on_devices_eq.
    - by rewrite insert_id. }
  set (w2 := if decide (0 < devices.size (clients.deref uid_ (registry w1)))%nat
             then _ else _).
  assert (Hw2 : registry w2 = registry w1).
  { subst w2. case_decide; [|done]. unfold EnqueueMessage_pkg, registry.
    by rewrite EnqueueMessage_mgr. }
  change (registry (with_clients ?f w2)) with (f (registry w2)).
  rewrite Hw2, Hw1.
  erewrite on_devices_eq by apply lookup_insert_eq.
  rewrite insert_insert_eq. f_equal.
  unfold clients.deref. rewrite Hl. simpl. unfold devices.put, devices.remove.
  destruct (devices.get device logged); [apply insert_delete_eq | done].
Qed.

Lemma take_slot_counters uid_ device client order w :
  clientOnline (mgr (take_slot uid_ device client order w))
  = clientOnline (mgr w)
  /\ maxOnline (mgr (take_slot uid_ device client order w)) = maxOnline (mgr w).
Proof.
  unfold take_slot.
  destruct (clients.get uid_ (registry w)) as [logged|]; [|done].
  case_decide; [|done]. simpl.
  set (w1 := match devices.get device logged with
             | Some existing => evict uid_ device existing w
             | None => w
             end).
  assert (Hw1 : clientOnline (mgr w1) = clientOnline (mgr w)
                /\ maxOnline (mgr w1) = maxOnline (mgr w)).
  { subst w1. destruct (devices.get device logged);
      [apply evict_counters | done]. }
  case_decide; [|done].
  unfold EnqueueMessage_pkg. by rewrite EnqueueMessage_mgr.
Qed.

(** A sign-in whose temporary entry holds [client] in slot 0 returns, with
    this world. *)
Lemma ClientSignIn_found id uid_ device order client w :
  slot id 0 w = Some client ->
  ClientSignIn id uid_ device order w
  = Returns (None,
      count_sign_in
        (with_clients (clients.delete id 0)
           (call client (SetID uid_ device)
              (take_slot uid_ device client order w)))).
Proof.
  intros (ds & Hget & Hc)%slot_get. unfold ClientSignIn. rewrite Hget.
  rewrite decide_False by (by eapply get_size).
  unfold devices.get. by rewrite Hc.
Qed.

Lemma count_sign_in_registry w : registry (count_sign_in w) = registry w.
Proof. unfold count_sign_in. simpl. by case_decide. Qed.

Lemma count_sign_in_heap w : heap (count_sign_in w) = heap w.
Proof. unfold count_sign_in. simpl. by case_decide. Qed.

Lemma ClientSignIn_registry id uid_ device order client w w' :
  slot id 0 w = Some client ->
  ClientSignIn id uid_ device order w = Returns (None, w') ->
  registry w'
  = clients.delete id 0
      (<[uid_ := <[device := client]> (clients.deref uid_ (registry w))]>
         (registry w)).
Proof.
  intros Hs. rewrite (ClientSignIn_found _ _ _ _ _ _ Hs). intros [= <-].
  rewrite count_sign_in_registry.
  change (registry (with_clients ?f (call ?r ?g ?w0))) with (f (registry w0)).
  by rewrite take_slot_registry.
Qed.

(** C7, for a temporary entry that has the shape I2 gives it: when the
    entry of [tempId] holds one slot, keyed 0, a
    [ClientSignIn(tempId, uid, device)] with [tempId ≠ uid] completes, and
    afterwards the registry no longer resolves [tempId]: [get(tempId)]
    reports absent. *)
Theorem ClientSignIn_temp_cleanup id uid_ device order c w :
  temporary_entry id c w -> id ≠ uid_ ->
  exists w',
    ClientSignIn id uid_ device order w = Returns (None, w')
    /\ clients.get id (registry w') = None
    /\ registry w' !! id = None.
Proof.
  unfold temporary_entry. intros Ht Hne.
  assert (Hs : slot id 0 w = Some c).
  { unfold slot. rewrite Ht. simpl. apply lookup_singleton_eq. }
  eexists. split; [by apply ClientSignIn_found|].
  assert (Hgone : registry (count_sign_in
            (with_clients (clients.delete id 0)
               (call c (SetID uid_ device)
                  (take_slot uid_ device c order w)))) !! id = None).
  { rewrite (ClientSignIn_registry id uid_ device order c w);
      [|done|by apply ClientSignIn_found].
    rewrite delete_lookup, lookup_insert_ne, Ht by done. simpl.
    rewrite delete_singleton_eq. by rewrite decide_True. }
  split; [|done]. apply get_None. by left.
Qed.

Lemma ClientSignIn_temp_cleanup_witness :
  temporary_entry 1000000 0%nat w_connected /\
  exists w',
    ClientSignIn 1000000 5001 1 [] w_connected = Returns (None, w')
    /\ clients.get 1000000 (registry w') = None.
Proof.
  assert (H : temporary_entry 1000000 0%nat w_connected)
    by (vm_compute; reflexivity).
  split; [exact H|].
  destruct (ClientSignIn_temp_cleanup 1000000 5001 1 [] 0%nat w_connected H)
    as (w' & Hr & Hg & _); [lia|].
  exists w'. split; [exact Hr | exact Hg].
Defined.

(** C7, as stated, fails when the entry of [tempId] holds a device besides
    slot 0. Two connections get the temporary identifiers 1000000 and
    1000001; the second signs in with 1000000 as user on device 3, so that
    the entry of 1000000 holds the slots 0 and 3. When the first connection
    then signs in as device 1 of user 5001, the call completes and
    [clients.delete(1000000, 0)] leaves the entry with slot 3:
    [get(1000000)] still resolves. *)
Lemma ClientSignIn_temp_still_resolves :
  slot 1000000 0 w_shared_temp = Some 0%nat
  /\ slot 1000000 3 w_shared_temp = Some 1%nat
  /\ 1000000 ≠ 5001
  /\ ClientSignIn 1000000 5001 1 [] w_shared_temp
     = Returns (None, w_shared_temp_signed)
  /\ clients.get 1000000 (registry w_shared_temp_signed)
     = Some {[ 3 := 1%nat ]}
  /\ clients.get 1000000 (registry w_shared_temp_signed) ≠ None.
Proof.
  assert (H : slot 1000000 0 w_shared_temp = Some 0%nat)
    by (vm_compute; reflexivity).
  assert (Hg : clients.get 1000000 (registry w_shared_temp_signed)
               = Some {[ 3 := 1%nat ]}) by (vm_compute; reflexivity).
  split; [exact H|].
  split; [vm_compute; reflexivity|].
  split; [lia|].
  split.
  { unfold w_shared_temp_signed.
    by rewrite (ClientSignIn_found 1000000 5001 1 [] 0%nat w_shared_temp H). }
  split; [exact Hg|]. by rewrite Hg.
Qed.

(** ** Eviction *)

Lemma send_status r msg w : same_status w (send r msg w).2.
Proof.
  intros r'. unfold send. destruct (heap w !! r) as [c|] eqn:Hc; [|done].
  simpl. destruct (decide (r = r')) as [<-|Hne].
  - rewrite list_lookup_alter_eq, Hc. simpl. f_equal.
    unfold Enqueue. by destruct (c_closed c).
  - by rewrite list_lookup_alter_ne.
Qed.

Lemma same_status_trans w1 w2 w3 :
  same_status w1 w2 -> same_status w2 w3 -> same_status w1 w3.
Proof. intros H12 H23 r. by rewrite H23. Qed.

Lemma deliver_status device msg k c e w :
  same_status w (deliver device msg k c (e, w)).2.
Proof.
  unfold deliver. case_decide; [done|].
  destruct (is_closed c w); [done | apply send_status].
Qed.

Lemma foreach_deliver_status order device msg ds e w :
  same_status w (devices.foreach order (deliver device msg) ds (e, w)).2.
Proof.
  unfold devices.foreach. revert e w.
  induction order as [|k order IH]; intros e w; cbn [fold_left]; [done|].
  destruct (ds !! k) as [c|]; [|apply IH].
  pose proof (deliver_status device msg k c e w) as Hd.
  destruct (deliver device msg k c (e, w)) as [e' w'].
  eapply same_status_trans; [exact Hd | apply IH].
Qed.

Lemma EnqueueMessage_status uid device msg order w :
  same_status w (EnqueueMessage uid device msg order w).2.
Proof.
  unfold EnqueueMessage.
  destruct (clients.get uid _) as [ds|]; [|done].
  case_decide; [done|]. case_decide.
  - destruct (devices.get device ds); [|done].
    intros r. by rewrite send_status.
  - intros r. by rewrite foreach_deliver_status.
Qed.

Lemma call_lookup r f w : heap (call r f w) !! r = f <$> heap w !! r.
Proof. apply list_lookup_alter_eq. Qed.

Lemma call_lookup_ne r r' f w :
  r ≠ r' -> heap (call r f w) !! r' = heap w !! r'.
Proof. apply list_lookup_alter_ne. Qed.

Lemma evict_status uid_ device existing c0 w :
  heap w !! existing = Some c0 ->
  status <$> heap (evict uid_ device existing w) !! existing
  = Some (temp_ids w (temp_issued w), 0, true).
Proof.
  intros Hc.
  set (w1 := call existing (SetID (temp_ids w (temp_issued w)) 0) (GenTemp w).2).
  change (evict uid_ device existing w) with
    (with_clients (clients.on_devices uid_ (devices.remove device))
       (call existing Exit (send existing kick_out_msg w1).2)).
  change (heap (with_clients ?f ?w0)) with (heap w0).
  rewrite call_lookup.
  pose proof (send_status existing kick_out_msg w1 existing) as Hs.
  assert (Hw1 : heap w1 !! existing
                = Some (SetID (temp_ids w (temp_issued w)) 0 c0)).
  { subst w1. rewrite call_lookup. simpl. by rewrite Hc. }
  rewrite Hw1 in Hs.
  destruct (heap (send existing kick_out_msg w1).2 !! existing) as [c1|];
    [|done].
  unfold status in *. simpl in *. injection Hs as Hu Hd _.
  by rewrite Hu, Hd.
Qed.

(** The session found at [(uid_, device)] leaves [take_slot] with a fresh
    temporary identity and a request to terminate. *)
Lemma take_slot_evicted uid_ device client order existing c0 w :
  slot uid_ device w = Some existing ->
  heap w !! existing = Some c0 ->
  status <$> heap (take_slot uid_ device client order w) !! existing
  = Some (temp_ids w (temp_issued w), 0, true).
Proof.
  intros (logged & Hget & He)%slot_get Hc. unfold take_slot. rewrite Hget.
  apply get_size in Hget.
  rewrite decide_True by (unfold devices.size in *; lia).
  unfold devices.get. rewrite He.
  change (heap (with_clients ?f ?w0)) with (heap w0).
  case_decide.
  - unfold EnqueueMessage_pkg. rewrite EnqueueMessage_status.
    by eapply evict_status.
  - by eapply evict_status.
Qed.

Lemma ClientSignIn_slot id uid_ device order client w w' :
  slot id 0 w = Some client ->
  (id = uid_ -> device ≠ 0) ->
  ClientSignIn id uid_ device order w = Returns (None, w') ->
  slot uid_ device w' = Some client.
Proof.
  intros Hs Hdev Hr. unfold slot.
  rewrite (ClientSignIn_registry _ _ _ _ _ _ _ Hs Hr).
  destruct (decide (id = uid_)) as [->|Hne].
  - rewrite delete_lookup, lookup_insert_eq. simpl.
    assert (Hin : delete 0 (<[device := client]>
                     (clients.deref uid_ (registry w))) !! device
                  = Some client).
    { rewrite lookup_delete_ne by (intros Hz; by apply Hdev).
      apply lookup_insert_eq. }
    case_decide as He; [|done].
    rewrite He in Hin. by rewrite lookup_empty in Hin.
  - rewrite delete_lookup_ne, lookup_insert_eq by done. simpl.
    apply lookup_insert_eq.
Qed.

(** C1, for a conflict between two sessions: a slot holds at most one
    session, and when [ClientSignIn(tempId, uid, device)] finds at
    [(uid, device)] a session other than the one of the temporary entry,
    the call completes, that session has afterwards the freshly generated
    temporary identifier as its identity and a request to terminate, and
    the slot holds exactly the session taken from the temporary entry. *)
Theorem ClientSignIn_evicts id uid_ device order client existing c0 w :
  slot id 0 w = Some client ->
  slot uid_ device w = Some existing ->
  existing ≠ client ->
  heap w !! existing = Some c0 ->
  exists w',
    ClientSignIn id uid_ device order w = Returns (None, w')
    /\ (forall u d r1 r2,
          slot u d w' = Some r1 -> slot u d w' = Some r2 -> r1 = r2)
    /\ (forall r, slot uid_ device w' = Some r <-> r = client)
    /\ status <$> heap w' !! existing
       = Some (temp_ids w (temp_issued w), 0, true).
Proof.
  intros Hc He Hne Hh.
  eexists. split; [by apply ClientSignIn_found|].
  split; [intros u d r1 r2 H1 H2; congruence|]. split.
  - intros r.
    erewrite ClientSignIn_slot; [| exact Hc | | by apply ClientSignIn_found].
    + naive_solver.
    + intros -> ->. congruence.
  - rewrite count_sign_in_heap.
    change (heap (with_clients ?f ?w0)) with (heap w0). simpl.
    rewrite list_lookup_alter_ne by done.
    by eapply take_slot_evicted.
Qed.

Lemma ClientSignIn_evicts_witness :
  (slot 1000001 0 w_conflict = Some 1%nat
   /\ slot 5001 1 w_conflict = Some 0%nat) /\
  exists w',
    ClientSignIn 1000001 5001 1 [] w_conflict = Returns (None, w')
    /\ slot 5001 1 w' = Some 1%nat
    /\ status <$> heap w' !! 0%nat = Some (1000002, 0, true).
Proof.
  assert (Hc : slot 1000001 0 w_conflict = Some 1%nat)
    by (vm_compute; reflexivity).
  assert (He : slot 5001 1 w_conflict = Some 0%nat)
    by (vm_compute; reflexivity).
  assert (Hh : heap w_conflict !! 0%nat
               = Some (mkClient 7%nat 5001 1 true false false []))
    by (vm_compute; reflexivity).
  split; [by split|].
  destruct (ClientSignIn_evicts 1000001 5001 1 [] 1%nat 0%nat _ w_conflict
              Hc He ltac:(lia) Hh) as (w' & Hr & _ & Hslot & Hst).
  exists w'. split; [exact Hr|]. split; [by apply Hslot | exact Hst].
Defined.

(** C1, as stated, fails when the session found at [(uid, device)] is the
    session of the temporary entry itself: a connection that signs in with
    its own temporary identifier as [uid] and device 0. The call finds a
    session at the slot, and afterwards the slot is empty and the session
    carries the identity [(uid, 0)], not the identifier generated for the
    eviction (1000001). *)
Lemma ClientSignIn_self_conflict :
  slot 1000000 0 w_connected = Some 0%nat
  /\ ClientSignIn 1000000 1000000 0 [] w_connected
     = Returns (None, w_self_signed)
  /\ slot 1000000 0 w_self_signed = None
  /\ registry w_self_signed = ∅
  /\ status <$> heap w_self_signed !! 0%nat = Some (1000000, 0, true)
  /\ clientOnline (mgr w_self_signed) = 1.
Proof.
  assert (H : slot 1000000 0 w_connected = Some 0%nat)
    by (vm_compute; reflexivity).
  split; [exact H|].
  split.
  { unfold w_self_signed.
    by rewrite (ClientSignIn_found 1000000 1000000 0 [] 0%nat w_connected H). }
  split; [vm_compute; reflexivity|].
  split; [vm_compute; reflexivity|].
  split; vm_compute; reflexivity.
Qed.

(** ** Broadcast to a user with a closed device *)

(** C2 at the failing input: user 5001 has the devices 1 and 2, the
    session of device 1 reports closed and the session of device 2 is
    open. When the loop of the broadcast visits device 1 first, the
    [ErrClientClosed] it stored in [err] is overwritten by the result of
    the delivery to device 2, and [EnqueueMessage(5001, 0, m)] returns nil;
    when it visits device 2 first, the call returns [ErrClientClosed]. In
    both orders the closed session receives nothing and the open one
    keeps the message. *)
Theorem EnqueueMessage_broadcast_closed_overwritten :
  slot 5001 1 w_device1_lost = Some 0%nat
  /\ slot 5001 2 w_device1_lost = Some 1%nat
  /\ is_closed 0%nat w_device1_lost = true
  /\ is_closed 1%nat w_device1_lost = false
  /\ devices.visits [1; 2] (clients.deref 5001 (registry w_device1_lost))
  /\ devices.visits [2; 1] (clients.deref 5001 (registry w_device1_lost))
  /\ (EnqueueMessage 5001 0 hello [1; 2] w_device1_lost).1 = None
  /\ (EnqueueMessage 5001 0 hello [2; 1] w_device1_lost).1
     = Some ErrClientClosed
  /\ c_queue <$> heap (EnqueueMessage 5001 0 hello [1; 2] w_device1_lost).2
                   !! 0%nat
     = c_queue <$> heap w_device1_lost !! 0%nat
  /\ c_queue <$> heap (EnqueueMessage 5001 0 hello [1; 2] w_device1_lost).2
                   !! 1%nat
     = Some [hello].
Proof.
  assert (Hds : clients.deref 5001 (registry w_device1_lost)
                = <[1 := 0%nat]> (<[2 := 1%nat]> ∅))
    by (vm_compute; reflexivity).
  assert (Hv : forall k : Z,
             is_Some ((<[1 := 0%nat]> (<[2 := 1%nat]> ∅) : gmap Z nat) !! k)
             <-> k = 1 \/ k = 2).
  { intros k. rewrite !lookup_insert_is_Some, lookup_empty.
    split.
    - intros [->|[_ [->|[_ []%is_Some_None]]]]; auto.
    - intros [->| ->]; [by left | right; split; [done | by left]]. }
  split; [vm_compute; reflexivity|].
  split; [vm_compute; reflexivity|].
  split; [vm_compute; reflexivity|].
  split; [vm_compute; reflexivity|].
  split.
  { rewrite Hds. split.
    - apply (bool_decide_unpack _). vm_compute. reflexivity.
    - intros k. rewrite Hv, !elem_of_cons, elem_of_nil. tauto. }
  split.
  { rewrite Hds. split.
    - apply (bool_decide_unpack _). vm_compute. reflexivity.
    - intros k. rewrite Hv, !elem_of_cons, elem_of_nil. tauto. }
  split; [vm_compute; reflexivity|].
  split; [vm_compute; reflexivity|].
  split; vm_compute; reflexivity.
Qed.

(** ** The counters [online] and [maxOnline] over a trace *)

Lemma AddClient_maxOnline uid cs w :
  maxOnline (mgr (AddClient uid cs w)) = maxOnline (mgr w)
  /\ clientOnline (mgr (AddClient uid cs w)) = add64 (clientOnline (mgr w)) 1.
Proof. done. Qed.

(** C3 at the failing input: on a fresh manager, the trace that consists
    of one [AddClient(5001, cs)] ends with [online] at 1, the largest value
    [online] took, and with [maxOnline] still at 0: [AddClient] counts the
    registration in [online] and never looks at [maxOnline]. *)
Theorem AddClient_skips_maxOnline :
  clientOnline (mgr w_session) = 0
  /\ maxOnline (mgr w_session) = 0
  /\ run [OpAddClient 5001 0%nat] w_session
     = Some [AddClient 5001 0%nat w_session]
  /\ registrations [OpAddClient 5001 0%nat] w_session = 1
  /\ clientOnline (mgr (AddClient 5001 0%nat w_session)) = 1
  /\ max_online 0 [AddClient 5001 0%nat w_session] = 1
  /\ maxOnline (mgr (AddClient 5001 0%nat w_session)) = 0.
Proof.
  split; [reflexivity|]. split; [reflexivity|]. split; [reflexivity|].
  split; [reflexivity|]. split; [reflexivity|]. split; reflexivity.
Qed.

Lemma count_sign_in_online w :
  clientOnline (mgr (count_sign_in w)) = add64 (clientOnline (mgr w)) 1
  /\ maxOnline (mgr (count_sign_in w))
     = Z.max (maxOnline (mgr w)) (add64 (clientOnline (mgr w)) 1).
Proof.
  unfold count_sign_in. simpl. case_decide; simpl; split; try done; lia.
Qed.

Lemma ClientSignIn_counters id uid_ device order client w w' :
  slot id 0 w = Some client ->
  ClientSignIn id uid_ device order w = Returns (None, w') ->
  clientOnline (mgr w') = add64 (clientOnline (mgr w)) 1
  /\ maxOnline (mgr w')
     = Z.max (maxOnline (mgr w)) (add64 (clientOnline (mgr w)) 1).
Proof.
  intros Hs. rewrite (ClientSignIn_found _ _ _ _ _ _ Hs). intros [= <-].
  destruct (take_slot_counters uid_ device client order w) as [Ho Hm].
  destruct (count_sign_in_online
              (with_clients (clients.delete id 0)
                 (call client (SetID uid_ device)
                    (take_slot uid_ device client order w)))) as [-> ->].
  simpl. by rewrite Ho, Hm.
Qed.

Lemma logout_found_slot uid device w :
  logout_found (OpLogout uid device) w
  = bool_decide (is_Some (slot uid device w)).
Proof.
  unfold logout_found. apply bool_decide_ext.
  destruct (slot uid device w) as [s|] eqn:Hs.
  - apply slot_get in Hs as (ds & -> & Hd). simpl. unfold devices.get.
    by rewrite Hd.
  - destruct (clients.get uid (registry w)) as [ds|] eqn:Hg; simpl; [|done].
    apply get_Some in Hg as [Hg _]. unfold slot in Hs. rewrite Hg in Hs.
    simpl in Hs. by rewrite Hs.
Qed.

(** A sign-in that found its temporary entry and returned found a session
    in slot 0 of it. *)
Lemma ClientSignIn_returns id uid_ device order w r :
  ClientSignIn id uid_ device order w = Returns r ->
  clients.get id (registry w) = None /\ r = (None, w)
  \/ exists client,
       is_Some (clients.get id (registry w)) /\ slot id 0 w = Some client.
Proof.
  unfold ClientSignIn.
  destruct (clients.get id (registry w)) as [ds|] eqn:Hg;
    [|intros [= <-]; by left].
  rewrite decide_False by (by eapply get_size).
  destruct (devices.get 0 ds) as [client|] eqn:Hc; [|done].
  intros _. right. exists client. split; [done|].
  apply get_Some in Hg as [Hg _]. unfold slot. by rewrite Hg.
Qed.

(** One operation moves [online] by what P4 counts for it. *)
Lemma step_online op w w' :
  step op w = Returns w' ->
  clientOnline (mgr w')
  = add64 (clientOnline (mgr w))
      ((if sign_in_found op w then 1 else 0) + (if is_add op then 1 else 0)
       - (if logout_found op w then 1 else 0))
  \/ (sign_in_found op w = false /\ is_add op = false
      /\ logout_found op w = false
      /\ clientOnline (mgr w') = clientOnline (mgr w)).
Proof.
  destruct op as [conn|uid cs|id uid device order|uid device];
    cbn [step sign_in_found is_add logout_found].
  - intros [= <-]. by right.
  - intros [= <-]. by left.
  - destruct (ClientSignIn id uid device order w) as [[e w1]|] eqn:Hr; [|done].
    intros [= <-].
    destruct (ClientSignIn_returns _ _ _ _ _ _ Hr)
      as [[Hg [= -> ->]]|(client & Hg & Hs)].
    + right. rewrite Hg. rewrite bool_decide_eq_false_2; [done|].
      by intros []%is_Some_None.
    + left. rewrite bool_decide_eq_true_2 by done.
      assert (e = None) as ->.
      { rewrite (ClientSignIn_found _ _ _ _ _ _ Hs) in Hr. by injection Hr. }
      by destruct (ClientSignIn_counters _ _ _ _ _ _ _ Hs Hr) as [-> _].
  - intros [= <-].
    change (bool_decide _) with (logout_found (OpLogout uid device) w).
    rewrite logout_found_slot.
    destruct (slot uid device w) as [s|] eqn:Hs.
    + left. rewrite bool_decide_eq_true_2 by eauto.
      by rewrite (ClientLogout_online _ _ _ _ Hs).
    + right. rewrite bool_decide_eq_false_2 by (by intros []%is_Some_None).
      by rewrite (ClientLogout_not_found _ _ _ Hs).
Qed.

Lemma final_cons w w1 ws : final w (w1 :: ws) = final w1 ws.
Proof. unfold final. rewrite last_cons. by destruct (last ws). Qed.

Lemma run_cons op tr w ws :
  run (op :: tr) w = Some ws ->
  exists w1 ws1, step op w = Returns w1 /\ run tr w1 = Some ws1
                 /\ ws = w1 :: ws1.
Proof.
  simpl. destruct (step op w) as [w1|]; [|done].
  destruct (run tr w1) as [ws1|] eqn:Hrun; [|done]. intros [= <-].
  by exists w1, ws1.
Qed.

(** X15, the first half of P4: over a trace that runs to its end, [online]
    moves by the number of sign-ins that found their temporary entry, plus
    the number of [AddClient] calls, minus the number of sign-outs that
    found their slot (in int64 arithmetic). *)
Lemma online_pairing tr w ws :
  run tr w = Some ws ->
  int64_range (clientOnline (mgr w)) ->
  clientOnline (mgr (final w ws))
  = wrap64 (clientOnline (mgr w)
            + sign_ins tr w + registrations tr w - sign_outs tr w).
Proof.
  unfold sign_ins, registrations, sign_outs.
  revert w ws. induction tr as [|op tr IH]; intros w ws Hrun Hrange.
  - injection Hrun as <-. unfold final. cbn [count last default].
    replace (clientOnline (mgr w) + 0 + 0 - 0) with (clientOnline (mgr w))
      by lia.
    by rewrite wrap64_id.
  - apply run_cons in Hrun as (w1 & ws1 & Hstep & Hrun & ->).
    rewrite final_cons. cbn [count]. rewrite Hstep.
    destruct (step_online _ _ _ Hstep) as [Hon|(-> & -> & -> & Hon)].
    + rewrite (IH _ _ Hrun) by (rewrite Hon; apply wrap64_range).
      rewrite Hon. unfold add64.
      match goal with
      | |- wrap64 (wrap64 ?a + ?b + ?c - ?d) = _ =>
          replace (wrap64 a + b + c - d) with (wrap64 a + (b + c - d)) by lia
      end.
      rewrite wrap64_add_l. f_equal; lia.
    + rewrite (IH _ _ Hrun) by (by rewrite Hon).
      rewrite Hon. f_equal; lia.
Qed.

(** What one operation does to the two counters. *)
Lemma step_counters op w w' :
  step op w = Returns w' ->
  (clientOnline (mgr w') = clientOnline (mgr w)
   /\ maxOnline (mgr w') = maxOnline (mgr w))
  \/ (is_add op = true
      /\ clientOnline (mgr w') = add64 (clientOnline (mgr w)) 1
      /\ maxOnline (mgr w') = maxOnline (mgr w))
  \/ (clientOnline (mgr w') = add64 (clientOnline (mgr w)) 1
      /\ maxOnline (mgr w')
         = Z.max (maxOnline (mgr w)) (add64 (clientOnline (mgr w)) 1))
  \/ (clientOnline (mgr w') = add64 (clientOnline (mgr w)) (-1)
      /\ maxOnline (mgr w') = maxOnline (mgr w)).
Proof.
  destruct op as [conn|uid cs|id uid device order|uid device]; cbn [step].
  - intros [= <-]. by left.
  - intros [= <-]. right. by left.
  - destruct (ClientSignIn id uid device order w) as [[e w1]|] eqn:Hr; [|done].
    intros [= <-].
    destruct (ClientSignIn_returns _ _ _ _ _ _ Hr)
      as [[Hg [= -> ->]]|(client & Hg & Hs)]; [by left|].
    right. right. left.
    assert (e = None) as ->.
    { rewrite (ClientSignIn_found _ _ _ _ _ _ Hs) in Hr. by injection Hr. }
    by apply (ClientSignIn_counters _ _ _ _ _ _ _ Hs Hr).
  - intros [= <-]. destruct (slot uid device w) as [s|] eqn:Hs.
    + right. right. right. by rewrite (ClientLogout_found _ _ _ _ Hs).
    + left. by rewrite (ClientLogout_not_found _ _ _ Hs).
Qed.

Lemma max_online_start M o ws :
  max_online (Z.max M o) ws = Z.max o (max_online M ws).
Proof.
  unfold max_online. induction ws as [|w ws IH]; simpl; [lia|].
  rewrite IH. lia.
Qed.

(** X16, the second half of P4 for the traces without [AddClient] (and
    short enough for [online] not to wrap around): when [online] does not
    exceed [maxOnline] at the start, [maxOnline] ends as the largest value
    among its start and the [online] that the trace went through. *)
Lemma maxOnline_watermark tr w ws :
  run tr w = Some ws ->
  Forall (fun op => is_add op = false) tr ->
  clientOnline (mgr w) <= maxOnline (mgr w) ->
  - 2 ^ 63 <= clientOnline (mgr w) - Z.of_nat (length tr) ->
  clientOnline (mgr w) + Z.of_nat (length tr) < 2 ^ 63 ->
  maxOnline (mgr (final w ws)) = max_online (maxOnline (mgr w)) ws.
Proof.
  revert w ws. induction tr as [|op tr IH]; intros w ws Hrun Hadd Hle Hlo Hhi.
  - by injection Hrun as <-.
  - apply run_cons in Hrun as (w1 & ws1 & Hstep & Hrun & ->).
    apply Forall_cons in Hadd as [Hop Hadd].
    rewrite final_cons. cbn [length] in Hlo, Hhi.
    assert (Hup : add64 (clientOnline (mgr w)) 1 = clientOnline (mgr w) + 1)
      by (apply wrap64_id; unfold int64_range; lia).
    assert (Hdown : add64 (clientOnline (mgr w)) (-1)
                    = clientOnline (mgr w) - 1)
      by (unfold add64; rewrite wrap64_id; unfold int64_range; lia).
    assert (Hw1 : maxOnline (mgr w1)
                  = Z.max (maxOnline (mgr w)) (clientOnline (mgr w1))
                  /\ clientOnline (mgr w) - 1 <= clientOnline (mgr w1)
                     <= clientOnline (mgr w) + 1).
    { destruct (step_counters _ _ _ Hstep)
        as [[-> ->]|[[Ha _]|[[-> ->]|[-> ->]]]]; [lia|congruence|lia|lia]. }
    destruct Hw1 as [Hmax Hnear].
    rewrite (IH _ _ Hrun Hadd) by lia.
    rewrite Hmax, max_online_start. done.
Qed.

(** ** The invariant I5 *)

(** [clients.delete] removes the user entry with its last device. *)
Lemma delete_last uid device c g :
  g !! uid = Some {[ device := c ]} -> clients.delete uid device g !! uid = None.
Proof.
  intros Hg. rewrite delete_lookup, Hg. simpl.
  rewrite delete_singleton_eq. by rewrite decide_True.
Qed.

Lemma delete_no_empty uid device g :
  no_empty_devices g -> no_empty_devices (clients.delete uid device g).
Proof.
  intros Hg uid' ds. destruct (decide (uid = uid')) as [<-|Hne].
  - rewrite delete_lookup. destruct (g !! uid) as [d|]; simpl; [|done].
    case_decide; [done|]. by intros [= <-].
  - rewrite delete_lookup_ne by done. apply Hg.
Qed.

Lemma insert_no_empty uid device c ds g :
  no_empty_devices g -> no_empty_devices (<[uid := <[device := c]> ds]> g).
Proof.
  intros Hg uid' ds'. destruct (decide (uid = uid')) as [<-|Hne].
  - rewrite lookup_insert_eq. intros [= <-]. apply insert_non_empty.
  - rewrite lookup_insert_ne by done. apply Hg.
Qed.

(** [ClientConnected], [AddClient], [ClientSignIn] and [EnqueueMessage]
    keep I5. *)
Lemma ClientConnected_no_empty conn w :
  no_empty_devices (registry w) ->
  no_empty_devices (registry (ClientConnected conn w).2).
Proof.
  intros Hg. unfold registry. rewrite ClientConnected_mgr. simpl.
  rewrite add_eq. by apply insert_no_empty.
Qed.

Lemma AddClient_no_empty uid cs w :
  no_empty_devices (registry w) -> no_empty_devices (registry (AddClient uid cs w)).
Proof.
  intros Hg. unfold registry, AddClient. simpl.
  rewrite add_eq. by apply insert_no_empty.
Qed.

Lemma ClientSignIn_no_empty id uid_ device order w e w' :
  ClientSignIn id uid_ device order w = Returns (e, w') ->
  no_empty_devices (registry w) -> no_empty_devices (registry w').
Proof.
  intros Hr Hg.
  destruct (ClientSignIn_returns _ _ _ _ _ _ Hr)
    as [[_ [= -> ->]]|(client & _ & Hs)]; [done|].
  assert (e = None) as ->.
  { rewrite (ClientSignIn_found _ _ _ _ _ _ Hs) in Hr. by injection Hr. }
  rewrite (ClientSignIn_registry _ _ _ _ _ _ _ Hs Hr).
  by apply delete_no_empty, insert_no_empty.
Qed.

Lemma EnqueueMessage_no_empty uid device msg order w :
  no_empty_devices (registry w) ->
  no_empty_devices (registry (EnqueueMessage uid device msg order w).2).
Proof.
  intros Hg. unfold registry. by rewrite EnqueueMessage_mgr.
Qed.

(** [ClientLogout] of the only device of a user leaves the user entry in
    the registry, with an empty device set. *)
Lemma ClientLogout_last_device uid device s w :
  registry w !! uid = Some {[ device := s ]} ->
  registry (ClientLogout uid device w).2 !! uid = Some ∅.
Proof.
  intros Hg.
  assert (Hs : slot uid device w = Some s).
  { unfold slot. rewrite Hg. simpl. apply lookup_singleton_eq. }
  rewrite (ClientLogout_found _ _ _ _ Hs). unfold registry in *. simpl.
  rewrite on_devices_lookup, Hg. simpl. unfold devices.remove.
  by rewrite delete_singleton_eq.
Qed.

(** C8 at the failing input: one connection signs in as device 1 of user
    5001 and signs out again. Before the sign-out the registry has no empty
    device set; after it the entry of user 5001 is still there and maps to
    an empty device set, so the registry still counts one user. *)
Theorem ClientLogout_leaves_empty_devices :
  registry w_signed_in !! 5001 = Some {[ 1 := 0%nat ]}
  /\ no_empty_devices (registry w_signed_in)
  /\ registry (ClientLogout 5001 1 w_signed_in).2 !! 5001 = Some ∅
  /\ ~ no_empty_devices (registry (ClientLogout 5001 1 w_signed_in).2)
  /\ clients.size (registry (ClientLogout 5001 1 w_signed_in).2) = 1%nat
  /\ clients.contains 5001 (registry (ClientLogout 5001 1 w_signed_in).2)
     = true.
Proof.
  assert (Hreg : registry w_signed_in = {[ 5001 := {[ 1 := 0%nat ]} ]})
    by (vm_compute; reflexivity).
  assert (Hin : registry w_signed_in !! 5001 = Some {[ 1 := 0%nat ]})
    by (rewrite Hreg; apply lookup_singleton_eq).
  pose proof (ClientLogout_last_device _ _ _ _ Hin) as Hout.
  split; [exact Hin|].
  split.
  { rewrite Hreg. intros uid ds [<- <-]%lookup_singleton_Some.
    apply insert_non_empty. }
  split; [exact Hout|].
  split; [intros Hinv; by apply (Hinv _ _ Hout)|].
  split; vm_compute; reflexivity.
Qed.

(** ** What a broadcast does, whatever the visiting order *)

Lemma send_is_closed r msg w s : is_closed s (send r msg w).2 = is_closed s w.
Proof.
  unfold send. destruct (heap w !! r) as [c|] eqn:Hc; [|done].
  unfold is_closed. simpl. destruct (decide (r = s)) as [<-|Hne].
  - rewrite list_lookup_alter_eq, Hc. simpl.
    unfold Enqueue, Closed. by destruct (c_closed c) eqn:E.
  - by rewrite list_lookup_alter_ne.
Qed.

Lemma send_open r msg w :
  is_closed r w = false ->
  (send r msg w).1 = None /\ received msg r (send r msg w).2.
Proof.
  unfold is_closed, send, received, Closed.
  destruct (heap w !! r) as [c|] eqn:Hc; simpl; [|done].
  intros Hcl. unfold Enqueue. rewrite Hcl. simpl. split; [done|].
  rewrite list_lookup_alter_eq, Hc. simpl. rewrite Hcl. simpl.
  eexists. split; [done|].
  simpl. apply elem_of_app. right. by apply list_elem_of_singleton.
Qed.

Lemma send_received r msg m s w :
  received m s w -> received m s (send r msg w).2.
Proof.
  intros (c & Hc & Hin). unfold send, received.
  destruct (heap w !! r) as [c'|] eqn:Hr; simpl; [|by exists c].
  destruct (decide (r = s)) as [->|Hne].
  - assert (c' = c) as -> by congruence.
    rewrite list_lookup_alter_eq, Hc. simpl. eexists. split; [done|].
    unfold Enqueue. destruct (c_closed c); simpl; [done|].
    apply elem_of_app. by left.
  - rewrite list_lookup_alter_ne by done. by exists c.
Qed.

(** One visit of the broadcast: a closed session is left alone and sets
    [err]; an open one accepts the message and resets [err] to nil. *)
Lemma deliver_broadcast msg k c e w :
  deliver 0 msg k c (e, w)
  = if is_closed c w then (Some ErrClientClosed, w) else send c msg w.
Proof. unfold deliver. by rewrite decide_False by (by intros [? _]). Qed.

Lemma foreach_app {S : Type} order1 order2 (f : Z -> ref -> S -> S) ds s :
  devices.foreach (order1 ++ order2) f ds s
  = devices.foreach order2 f ds (devices.foreach order1 f ds s).
Proof. unfold devices.foreach. apply fold_left_app. Qed.

(** Whatever the order: the sessions that report closed are not delivered
    to, every open session of a visited device holds the message
    afterwards, and no session opens or closes. *)
Lemma broadcast_sessions order msg ds e w :
  let r := devices.foreach order (deliver 0 msg) ds (e, w) in
  (forall s, is_closed s r.2 = is_closed s w)
  /\ (forall s, is_closed s w = true -> heap r.2 !! s = heap w !! s)
  /\ (forall s m, received m s w -> received m s r.2)
  /\ (forall k s, k ∈ order -> ds !! k = Some s -> is_closed s w = false ->
        received msg s r.2).
Proof.
  revert e w. induction order as [|k order IH]; intros e w r.
  - subst r. simpl. repeat split; try done. intros k s []%elem_of_nil.
  - subst r. unfold devices.foreach. cbn [fold_left].
    fold (devices.foreach order (deliver 0 msg) ds).
    destruct (ds !! k) as [c|] eqn:Hk.
    2:{ destruct (IH e w) as (H1 & H2 & H3 & H4).
        repeat split; try done.
        intros k' s [->|Hin]%elem_of_cons Hs Hcl; [congruence|].
        by eapply H4. }
    rewrite deliver_broadcast.
    destruct (is_closed c w) eqn:Hc.
    { destruct (IH (Some ErrClientClosed) w) as (H1 & H2 & H3 & H4).
      repeat split; try done.
      intros k' s [->|Hin]%elem_of_cons Hs Hcl; [congruence|].
      by eapply H4. }
    pose proof (send_is_closed c msg w) as Hsame.
    destruct (send_open c msg w Hc) as [_ Hrecv].
    pose proof (fun m s => send_received c msg m s w) as Hmono.
    assert (Hkeep : forall s, is_closed s w = true ->
               heap (send c msg w).2 !! s = heap w !! s).
    { intros s Hs. unfold send. destruct (heap w !! c); [|done]. simpl.
      apply list_lookup_alter_ne. intros <-. congruence. }
    destruct (send c msg w) as [e1 w1]. simpl in *.
    destruct (IH e1 w1) as (H1 & H2 & H3 & H4).
    split; [intros s; by rewrite H1|].
    split; [intros s Hs; rewrite H2 by (by rewrite Hsame); by apply Hkeep|].
    split; [intros s m Hm; by apply H3, Hmono|].
    intros k' s [->|Hin]%elem_of_cons Hs Hcl.
    + assert (s = c) as -> by congruence. by apply H3.
    + eapply H4; [done..|]. by rewrite Hsame.
Qed.

(** The result of a broadcast is decided by the device visited last:
    [ErrClientClosed] when its session reports closed, nil when it is
    open, whatever happened at the devices visited before. *)
Lemma broadcast_result order k s msg ds e w :
  ds !! k = Some s ->
  (devices.foreach (order ++ [k]) (deliver 0 msg) ds (e, w)).1
  = if is_closed s w then Some ErrClientClosed else None.
Proof.
  intros Hk. rewrite foreach_app.
  destruct (broadcast_sessions order msg ds e w) as (Hsame & _).
  destruct (devices.foreach order (deliver 0 msg) ds (e, w)) as [e1 w1].
  unfold devices.foreach. cbn [fold_left]. rewrite Hk, deliver_broadcast.
  simpl in Hsame. rewrite <- (Hsame s).
  destruct (is_closed s w1) eqn:Hc; [done|].
  by destruct (send_open s msg w1 Hc) as [-> _].
Qed.

(** ** The registry, slot by slot *)

Lemma slot_slot_of uid device w : slot uid device w = slot_of (registry w) uid device.
Proof. done. Qed.

Lemma slot_of_insert uid device c ds g u d :
  slot_of (<[uid := <[device := c]> ds]> g) u d
  = if decide (u = uid) then
      if decide (d = device) then Some c else ds !! d
    else slot_of g u d.
Proof.
  unfold slot_of, devices.get. case_decide as Hu.
  - subst u. rewrite lookup_insert_eq. simpl. case_decide as Hd.
    + subst d. apply lookup_insert_eq.
    + by rewrite lookup_insert_ne.
  - by rewrite lookup_insert_ne.
Qed.

Lemma slot_of_add uid device c g u d :
  slot_of (clients.add uid device c g) u d
  = if decide (u = uid /\ d = device) then Some c else slot_of g u d.
Proof.
  rewrite add_eq, slot_of_insert. unfold slot_of, clients.deref, devices.get.
  destruct (decide (u = uid /\ d = device)) as [[-> ->]|Hn].
  - by rewrite !decide_True by done.
  - destruct (decide (u = uid)) as [->|Hu]; [|done].
    rewrite decide_False by (intros ->; by apply Hn).
    by destruct (g !! uid).
Qed.

Lemma slot_of_delete uid device g u d :
  slot_of (clients.delete uid device g) u d
  = if decide (u = uid /\ d = device) then None else slot_of g u d.
Proof.
  unfold slot_of, devices.get.
  destruct (decide (u = uid /\ d = device)) as [[-> ->]|Hn].
  - rewrite delete_lookup. destruct (g !! uid) as [ds|]; simpl; [|done].
    destruct (decide (delete device ds = ∅)); simpl;
      [done | apply lookup_delete_eq].
  - destruct (decide (u = uid)) as [->|Hu].
    + assert (device ≠ d) as Hd by (intros ->; by apply Hn).
      rewrite delete_lookup. destruct (g !! uid) as [ds|]; simpl; [|done].
      destruct (decide (delete device ds = ∅)) as [He|He]; simpl.
      * rewrite <- (lookup_delete_ne ds device d) by done.
        by rewrite He, lookup_empty.
      * by rewrite lookup_delete_ne.
    + by rewrite delete_lookup_ne.
Qed.

Lemma slot_of_remove uid device g u d :
  slot_of (clients.on_devices uid (devices.remove device) g) u d
  = if decide (u = uid /\ d = device) then None else slot_of g u d.
Proof.
  unfold slot_of, devices.get, devices.remove.
  destruct (decide (u = uid /\ d = device)) as [[-> ->]|Hn].
  - rewrite on_devices_lookup. destruct (g !! uid) as [ds|]; simpl; [|done].
    apply lookup_delete_eq.
  - destruct (decide (u = uid)) as [->|Hu].
    + assert (device ≠ d) as Hd by (intros ->; by apply Hn).
      rewrite on_devices_lookup. destruct (g !! uid) as [ds|]; simpl; [|done].
      by rewrite lookup_delete_ne.
    + by rewrite on_devices_lookup_ne.
Qed.

(** X1: [isOnline(uid)] is true exactly when some device of the user holds
    a session; a user entry left with an empty device set counts as
    offline. *)
Theorem isOnline_iff uid w :
  isOnline uid w = true <-> exists device s, slot uid device w = Some s.
Proof.
  unfold isOnline. split.
  - destruct (clients.get uid (registry w)) as [ds|] eqn:Hg; [|done].
    intros _. apply get_Some in Hg as [Hg Hne].
    apply map_choose in Hne as (device & s & Hs).
    exists device, s. unfold slot, devices.get. by rewrite Hg.
  - intros (device & s & (ds & -> & Hs)%slot_get).
    apply bool_decide_eq_true_2. apply Nat.neq_0_lt_0.
    unfold devices.size. apply map_size_non_empty_iff.
    intros ->. by rewrite lookup_empty in Hs.
Qed.

(** X2: [isDeviceOnline(uid, device)] is true exactly when the slot
    [(uid, device)] holds a session. *)
Theorem isDeviceOnline_iff uid device w :
  isDeviceOnline uid device w = true <-> is_Some (slot uid device w).
Proof.
  unfold isDeviceOnline. split.
  - destruct (clients.get uid (registry w)) as [ds|] eqn:Hg; [|done].
    intros Hd%bool_decide_eq_true_1. apply get_Some in Hg as [Hg _].
    unfold slot. by rewrite Hg.
  - intros [s (ds & -> & Hs)%slot_get].
    apply bool_decide_eq_true_2. unfold devices.get. by rewrite Hs.
Qed.

(** X3: [clients.add(uid, device, c)] writes [c] into the slot
    [(uid, device)] and leaves every other slot, of this user and of the
    others, as it was; afterwards [get(uid)] is not nil. *)
Theorem add_slots uid device c g :
  (forall u d,
     slot_of (clients.add uid device c g) u d
     = if decide (u = uid /\ d = device) then Some c else slot_of g u d)
  /\ exists ds, clients.get uid (clients.add uid device c g) = Some ds
                /\ ds !! device = Some c.
Proof.
  split; [intros u d; apply slot_of_add|].
  exists (<[device := c]> (clients.deref uid g)). split.
  - apply get_Some. split; [apply add_lookup | apply insert_non_empty].
  - apply lookup_insert_eq.
Qed.

(** X4: [clients.delete(uid, device)] empties the slot [(uid, device)] and
    leaves every other slot as it was; it never leaves the user with an
    empty device set, and so also drops an entry that was empty before. *)
Theorem delete_slots uid device g :
  (forall u d,
     slot_of (clients.delete uid device g) u d
     = if decide (u = uid /\ d = device) then None else slot_of g u d)
  /\ clients.delete uid device g !! uid ≠ Some ∅.
Proof.
  split; [intros u d; apply slot_of_delete|].
  rewrite delete_lookup. destruct (g !! uid) as [ds|]; simpl; [|done].
  case_decide; [done|]. congruence.
Qed.

(** X5: registering a session in a free slot and deleting that slot again
    gives back the registry, provided the user had no empty device set. *)
Theorem delete_add uid device c g :
  slot_of g uid device = None ->
  g !! uid ≠ Some ∅ ->
  clients.delete uid device (clients.add uid device c g) = g.
Proof.
  intros Hfree Hne. unfold clients.delete. rewrite add_lookup.
  unfold devices.remove, devices.size.
  rewrite delete_insert_eq. unfold slot_of, clients.deref, devices.get in *.
  destruct (g !! uid) as [ds|] eqn:Hg; simpl in *.
  - rewrite delete_id by done. rewrite decide_False.
    + rewrite add_eq. unfold clients.deref. rewrite Hg. simpl.
      rewrite insert_insert_eq. by apply insert_id.
    + intros Hs%map_size_empty_iff. congruence.
  - rewrite delete_empty. rewrite decide_True by apply map_size_empty.
    rewrite add_eq. rewrite delete_insert_eq. by apply delete_id.
Qed.

Lemma delete_add_witness :
  clients.delete 5001 1 (clients.add 5001 1 0%nat (registry w_connected))
  = registry w_connected.
Proof.
  apply (delete_add 5001 1 0%nat (registry w_connected)).
  - vm_compute. reflexivity.
  - vm_compute. discriminate.
Defined.

(** X6: [clients.add] grows [size()] by one exactly when the user was not
    contained before, and the user is contained afterwards; after
    [clients.delete] of that slot the user is contained exactly when it has
    other devices. *)
Theorem add_delete_size uid device c g :
  clients.size (clients.add uid device c g)
  = (if clients.contains uid g then clients.size g else S (clients.size g))
  /\ clients.contains uid (clients.add uid device c g) = true
  /\ clients.contains uid
       (clients.delete uid device (clients.add uid device c g))
     = bool_decide (delete device (clients.deref uid g) ≠ ∅).
Proof.
  unfold clients.size, clients.contains. split; [|split].
  - rewrite add_eq, map_size_insert. destruct (g !! uid) as [ds|] eqn:Hg.
    + by rewrite bool_decide_eq_true_2 by eauto.
    + by rewrite bool_decide_eq_false_2 by (by intros []%is_Some_None).
  - apply bool_decide_eq_true_2. rewrite add_lookup. eauto.
  - apply bool_decide_ext. rewrite delete_lookup, add_lookup. simpl.
    rewrite delete_insert_eq. case_decide as He.
    + split; [by intros []%is_Some_None | done].
    + split; [done | eauto].
Qed.

(** ** Connecting and registering, slot by slot *)

Lemma alter_last {A} (f : A -> A) (l : list A) (x : A) :
  alter f (length l) (l ++ [x]) = l ++ [f x].
Proof.
  replace (length l) with (length l + 0)%nat by lia.
  by rewrite alter_app_r.
Qed.

Lemma ClientConnected_effect_aux conn w :
  (forall u d,
     slot u d (ClientConnected conn w).2
     = if decide (u = temp_ids w (temp_issued w) /\ d = 0)
       then Some (length (heap w)) else slot u d w)
  /\ heap (ClientConnected conn w).2
     = heap w ++ [Run (SetID (temp_ids w (temp_issued w)) 0 (newClient conn))].
Proof.
  split.
  - intros u d. rewrite !slot_slot_of. unfold registry.
    rewrite ClientConnected_mgr. apply slot_of_add.
  - simpl. by rewrite !alter_last.
Qed.

(** X7: [ClientConnected] returns the identifier it generated, appends one
    started session with the identity [(id, 0)], writes it into the slot
    [(id, 0)] and leaves every other slot, every other session and the
    counters [online], [maxOnline] and [messageSent] as they were; a
    session that held the slot before is replaced without being told. *)
Theorem ClientConnected_effect conn w :
  let T := temp_ids w (temp_issued w) in
  let r := ClientConnected conn w in
  r.1 = T
  /\ (forall u d,
        slot u d r.2
        = if decide (u = T /\ d = 0) then Some (length (heap w))
          else slot u d w)
  /\ heap r.2 = heap w ++ [Run (SetID T 0 (newClient conn))]
  /\ clientOnline (mgr r.2) = clientOnline (mgr w)
  /\ maxOnline (mgr r.2) = maxOnline (mgr w)
  /\ messageSent (mgr r.2) = messageSent (mgr w)
  /\ conn_enter r.2 = S (conn_enter w)
  /\ conn_exit r.2 = conn_exit w.
Proof.
  intros T r. split; [done|]. split.
  { intros u d. rewrite !slot_slot_of. unfold registry. subst r.
    rewrite ClientConnected_mgr. apply slot_of_add. }
  split; [|done].
  subst r. simpl. by rewrite !alter_last.
Qed.

(** X8: [AddClient(uid, cs)] writes [cs] into the slot [(uid, 0)], calls
    nothing on any session and adds one to [online]: a session that held
    the slot is replaced without eviction, and registering twice under one
    user counts two in [online] for one occupied slot. *)
Theorem AddClient_effect uid cs w :
  (forall u d,
     slot u d (AddClient uid cs w)
     = if decide (u = uid /\ d = 0) then Some cs else slot u d w)
  /\ heap (AddClient uid cs w) = heap w
  /\ clientOnline (mgr (AddClient uid cs w)) = add64 (clientOnline (mgr w)) 1
  /\ forall cs',
       slot uid 0 (AddClient uid cs' (AddClient uid cs w)) = Some cs'
       /\ clientOnline (mgr (AddClient uid cs' (AddClient uid cs w)))
          = add64 (add64 (clientOnline (mgr w)) 1) 1.
Proof.
  assert (Hslot : forall cs0 w0 u d,
            slot u d (AddClient uid cs0 w0)
            = if decide (u = uid /\ d = 0) then Some cs0 else slot u d w0).
  { intros cs0 w0 u d. rewrite !slot_slot_of. apply slot_of_add. }
  split; [apply Hslot|]. split; [done|]. split; [done|].
  intros cs'. split; [|done]. rewrite Hslot. by rewrite decide_True.
Qed.

(** ** Sign-in, slot by slot *)

(** X9: [ClientSignIn(id, uid, device)] panics exactly when [id] has a
    registered device but none at device 0: the nil read from slot 0 is
    dereferenced by [client.SetID]. In every other case it returns nil. *)
Theorem ClientSignIn_panics_iff id uid_ device order w :
  (ClientSignIn id uid_ device order w = Panics
   <-> (exists d s, slot id d w = Some s) /\ slot id 0 w = None)
  /\ (ClientSignIn id uid_ device order w ≠ Panics ->
      exists w', ClientSignIn id uid_ device order w = Returns (None, w')).
Proof.
  unfold ClientSignIn.
  destruct (clients.get id (registry w)) as [ds|] eqn:Hg.
  - pose proof Hg as Hsize%get_size.
    rewrite decide_False by done.
    apply get_Some in Hg as [Hg Hne].
    assert (Hslot : forall d, slot id d w = ds !! d)
      by (intros d; unfold slot; by rewrite Hg).
    unfold devices.get. rewrite Hslot.
    destruct (ds !! 0) as [client|] eqn:H0.
    + split; [|eauto]. split; [done|]. by intros [_ ?].
    + split; [|done]. split; [|done]. intros _. split; [|done].
      apply map_choose in Hne as (d & s & Hd). exists d, s. by rewrite Hslot.
  - split; [|eauto]. split; [done|].
    intros [(d & s & (ds & Hds & _)%slot_get) _]. congruence.
Qed.

Lemma ClientSignIn_panics_witness :
  slot 5001 1 w_signed_in = Some 0%nat
  /\ slot 5001 0 w_signed_in = None
  /\ ClientSignIn 5001 5002 3 [] w_signed_in = Panics.
Proof.
  assert (H1 : slot 5001 1 w_signed_in = Some 0%nat)
    by (vm_compute; reflexivity).
  assert (H0 : slot 5001 0 w_signed_in = None) by (vm_compute; reflexivity).
  split; [exact H1|]. split; [exact H0|].
  apply (ClientSignIn_panics_iff 5001 5002 3 [] w_signed_in).
  split; [|exact H0]. exists 1, 0%nat. exact H1.
Defined.

Lemma ClientSignIn_slot_of id uid_ device order client w w' :
  slot id 0 w = Some client ->
  ClientSignIn id uid_ device order w = Returns (None, w') ->
  forall u d,
    slot u d w'
    = if decide (u = id /\ d = 0) then None
      else if decide (u = uid_ /\ d = device) then Some client
      else slot u d w.
Proof.
  intros Hs Hr u d. rewrite !slot_slot_of.
  rewrite (ClientSignIn_registry _ _ _ _ _ _ _ Hs Hr).
  rewrite slot_of_delete. case_decide as H0; [done|].
  rewrite slot_of_insert. unfold slot_of, clients.deref, devices.get.
  destruct (decide (u = uid_)) as [->|Hu].
  - destruct (decide (d = device)) as [->|Hd].
    + by rewrite decide_True.
    + rewrite decide_False by (by intros [_ ?]).
      by destruct (registry w !! uid_).
  - by rewrite decide_False by (by intros [? _]).
Qed.

(** X10: a [ClientSignIn(id, uid, device)] that finds a session in slot 0
    of [id] returns nil and moves that session: afterwards the slot
    [(id, 0)] is empty, the slot [(uid, device)] holds the session (unless
    it is the slot [(id, 0)] itself), and every other slot, of these users
    and of the others, is as before. *)
Theorem ClientSignIn_slots id uid_ device order client w :
  slot id 0 w = Some client ->
  exists w',
    ClientSignIn id uid_ device order w = Returns (None, w')
    /\ forall u d,
         slot u d w'
         = if decide (u = id /\ d = 0) then None
           else if decide (u = uid_ /\ d = device) then Some client
           else slot u d w.
Proof.
  intros Hs. eexists. split; [by apply ClientSignIn_found|].
  by apply (ClientSignIn_slot_of id uid_ device order client w);
    [|apply ClientSignIn_found].
Qed.

Lemma ClientSignIn_slots_witness :
  slot 1000000 0 w_connected = Some 0%nat /\
  exists w',
    ClientSignIn 1000000 5001 1 [] w_connected = Returns (None, w')
    /\ slot 1000000 0 w' = None
    /\ slot 5001 1 w' = Some 0%nat
    /\ slot 5001 2 w' = None.
Proof.
  assert (H : slot 1000000 0 w_connected = Some 0%nat)
    by (vm_compute; reflexivity).
  split; [exact H|].
  destruct (ClientSignIn_slots 1000000 5001 1 [] 0%nat w_connected H)
    as (w' & Hr & Hslots).
  exists w'. split; [exact Hr|].
  split; [|split]; rewrite Hslots; vm_compute; reflexivity.
Defined.

Lemma evict_status_ne uid_ device existing w r :
  r ≠ existing ->
  status <$> heap (evict uid_ device existing w) !! r = status <$> heap w !! r.
Proof.
  intros Hne.
  set (w1 := call existing (SetID (temp_ids w (temp_issued w)) 0) (GenTemp w).2).
  change (evict uid_ device existing w) with
    (with_clients (clients.on_devices uid_ (devices.remove device))
       (call existing Exit (send existing kick_out_msg w1).2)).
  change (heap (with_clients ?f ?w0)) with (heap w0).
  rewrite call_lookup_ne by done. rewrite send_status.
  subst w1. by rewrite call_lookup_ne by done.
Qed.

Lemma take_slot_status_ne uid_ device client order w r :
  slot uid_ device w ≠ Some r ->
  status <$> heap (take_slot uid_ device client order w) !! r
  = status <$> heap w !! r.
Proof.
  intros Hr. unfold take_slot.
  destruct (clients.get uid_ (registry w)) as [logged|] eqn:Hget; [|done].
  case_decide; [|done].
  apply get_Some in Hget as [Hl _].
  assert (Hslot : slot uid_ device w = devices.get device logged)
    by (unfold slot; by rewrite Hl).
  rewrite Hslot in Hr.
  change (heap (with_clients ?f ?w0)) with (heap w0).
  assert (Hev : status <$> heap (match devices.get device logged with
                                 | Some existing => evict uid_ device existing w
                                 | None => w
                                 end) !! r = status <$> heap w !! r).
  { destruct (devices.get device logged) as [existing|]; [|done].
    apply evict_status_ne. congruence. }
  case_decide; [|done].
  unfold EnqueueMessage_pkg. by rewrite EnqueueMessage_status.
Qed.

Lemma ClientSignIn_sessions_aux id uid_ device order client c w :
  slot id 0 w = Some client ->
  heap w !! client = Some c ->
  let w' := count_sign_in
              (with_clients (clients.delete id 0)
                 (call client (SetID uid_ device)
                    (take_slot uid_ device client order w))) in
  (exists c', heap w' !! client = Some c'
              /\ c_uid c' = uid_ /\ c_device c' = device)
  /\ forall r, r ≠ client -> slot uid_ device w ≠ Some r ->
       status <$> heap w' !! r = status <$> heap w !! r.
Proof.
  intros Hs Hc w'. subst w'.
  rewrite count_sign_in_heap.
  change (heap (with_clients ?f ?w0)) with (heap w0). split.
  - rewrite call_lookup.
    assert (is_Some (heap (take_slot uid_ device client order w) !! client))
      as [c1 Hc1].
    { destruct (decide (slot uid_ device w = Some client)) as [He|He].
      - pose proof (take_slot_evicted uid_ device client order client c w
                      He Hc) as Hst.
        destruct (heap (take_slot uid_ device client order w) !! client);
          [eauto | done].
      - pose proof (take_slot_status_ne uid_ device client order w client He)
          as Hst.
        rewrite Hc in Hst.
        destruct (heap (take_slot uid_ device client order w) !! client);
          [eauto | done]. }
    rewrite Hc1. simpl. eauto.
  - intros r Hr He. rewrite call_lookup_ne by done.
    by apply take_slot_status_ne.
Qed.

(** X11: after a [ClientSignIn(id, uid, device)] that found a session in
    slot 0 of [id], that session carries the identity [(uid, device)];
    apart from it and from the session found at [(uid, device)], no session
    changed identity or was asked to terminate. *)
Theorem ClientSignIn_sessions id uid_ device order client c w :
  slot id 0 w = Some client ->
  heap w !! client = Some c ->
  exists w',
    ClientSignIn id uid_ device order w = Returns (None, w')
    /\ (exists c', heap w' !! client = Some c'
                   /\ c_uid c' = uid_ /\ c_device c' = device)
    /\ forall r, r ≠ client -> slot uid_ device w ≠ Some r ->
         status <$> heap w' !! r = status <$> heap w !! r.
Proof.
  intros Hs Hc. eexists. split; [by apply ClientSignIn_found|].
  by apply (ClientSignIn_sessions_aux id uid_ device order client c w).
Qed.

Lemma ClientSignIn_sessions_witness :
  (slot 1000001 0 w_conflict = Some 1%nat
   /\ heap w_conflict !! 1%nat
      = Some (mkClient 8%nat 1000001 0 true false false [])) /\
  exists w',
    ClientSignIn 1000001 5001 1 [] w_conflict = Returns (None, w')
    /\ exists c', heap w' !! 1%nat = Some c'
                  /\ c_uid c' = 5001 /\ c_device c' = 1.
Proof.
  assert (Hs : slot 1000001 0 w_conflict = Some 1%nat)
    by (vm_compute; reflexivity).
  assert (Hc : heap w_conflict !! 1%nat
               = Some (mkClient 8%nat 1000001 0 true false false []))
    by (vm_compute; reflexivity).
  split; [by split|].
  destruct (ClientSignIn_sessions 1000001 5001 1 [] 1%nat _ w_conflict Hs Hc)
    as (w' & Hr & Hid & _).
  exists w'. split; [exact Hr | exact Hid].
Defined.

(** X12: a [ClientSignIn] that found a session in slot 0 of [id] adds one
    to [online] and raises [maxOnline] to the new [online] when that is
    larger, so that [online <= maxOnline] holds right after it, whatever
    the counters were before. *)
Theorem ClientSignIn_watermark id uid_ device order client w :
  slot id 0 w = Some client ->
  exists w',
    ClientSignIn id uid_ device order w = Returns (None, w')
    /\ clientOnline (mgr w') = add64 (clientOnline (mgr w)) 1
    /\ maxOnline (mgr w') = Z.max (maxOnline (mgr w)) (clientOnline (mgr w'))
    /\ clientOnline (mgr w') <= maxOnline (mgr w').
Proof.
  intros Hs. eexists. split; [by apply ClientSignIn_found|].
  destruct (ClientSignIn_counters id uid_ device order client w _ Hs
              (ClientSignIn_found _ _ _ _ _ _ Hs)) as [Ho Hm].
  rewrite Hm, Ho. split; [done|]. split; [done|]. lia.
Qed.

Lemma ClientSignIn_watermark_witness :
  slot 1000000 0 w_connected = Some 0%nat /\
  exists w',
    ClientSignIn 1000000 5001 1 [] w_connected = Returns (None, w')
    /\ clientOnline (mgr w') = 1
    /\ clientOnline (mgr w') <= maxOnline (mgr w').
Proof.
  assert (H : slot 1000000 0 w_connected = Some 0%nat)
    by (vm_compute; reflexivity).
  split; [exact H|].
  destruct (ClientSignIn_watermark 1000000 5001 1 [] 0%nat w_connected H)
    as (w' & Hr & Ho & _ & Hle).
  exists w'. split; [exact Hr|]. split; [|exact Hle].
  rewrite Ho. vm_compute. reflexivity.
Defined.

(** ** Sign-out, slot by slot *)

(** X13: a [ClientLogout(uid, device)] that finds the session [s] in its
    slot returns nil, empties that slot and leaves every other slot as it
    was; [s] gets the freshly generated temporary identifier as identity
    and a request to terminate, no other session is touched, one
    [SConnExit] is recorded, and [maxOnline] and [messageSent] stay. *)
Theorem ClientLogout_effect uid device s c w :
  slot uid device w = Some s ->
  heap w !! s = Some c ->
  let r := ClientLogout uid device w in
  r.1 = None
  /\ (forall u d,
        slot u d r.2
        = if decide (u = uid /\ d = device) then None else slot u d w)
  /\ heap r.2 !! s = Some (Exit (SetID (temp_ids w (temp_issued w)) 0 c))
  /\ (forall s', s' ≠ s -> heap r.2 !! s' = heap w !! s')
  /\ maxOnline (mgr r.2) = maxOnline (mgr w)
  /\ messageSent (mgr r.2) = messageSent (mgr w)
  /\ conn_exit r.2 = S (conn_exit w).
Proof.
  intros Hs Hc r. subst r.
  split; [by rewrite (ClientLogout_found _ _ _ _ Hs)|].
  split.
  { intros u d. rewrite (ClientLogout_found _ _ _ _ Hs), !slot_slot_of.
    apply slot_of_remove. }
  split; [by apply ClientLogout_session|].
  rewrite (ClientLogout_found _ _ _ _ Hs). simpl.
  split; [|done]. intros s' Hne.
  by rewrite !list_lookup_alter_ne by done.
Qed.

Lemma ClientLogout_effect_witness :
  (slot 5001 1 w_signed_in = Some 0%nat
   /\ heap w_signed_in !! 0%nat
      = Some (mkClient 7%nat 5001 1 true false false []))
  /\ slot 5001 1 (ClientLogout 5001 1 w_signed_in).2 = None
  /\ heap (ClientLogout 5001 1 w_signed_in).2 !! 0%nat
     = Some (mkClient 7%nat 1000001 0 true true false []).
Proof.
  assert (Hs : slot 5001 1 w_signed_in = Some 0%nat)
    by (vm_compute; reflexivity).
  assert (Hc : heap w_signed_in !! 0%nat
               = Some (mkClient 7%nat 5001 1 true false false []))
    by (vm_compute; reflexivity).
  split; [by split|].
  destruct (ClientLogout_effect 5001 1 0%nat _ w_signed_in Hs Hc)
    as (_ & Hslots & Hh & _).
  split; [|exact Hh].
  rewrite Hslots. vm_compute. reflexivity.
Defined.

(** X14: [ClientLogout] always returns nil, and it leaves the world as it
    was exactly when the slot [(uid, device)] holds no session. *)
Theorem ClientLogout_noop_iff uid device w :
  (ClientLogout uid device w).1 = None
  /\ ((ClientLogout uid device w).2 = w <-> slot uid device w = None).
Proof.
  destruct (slot uid device w) as [s|] eqn:Hs.
  - rewrite (ClientLogout_found _ _ _ _ Hs). split; [done|].
    split; [|done]. intros Hw.
    apply (f_equal temp_issued) in Hw. simpl in Hw. lia.
  - by rewrite (ClientLogout_not_found _ _ _ Hs).
Qed.

(** ** Traces: counters, statistics and invariants *)

Lemma example_trace_runs : run example_trace w_fresh = Some example_worlds.
Proof. vm_compute. reflexivity. Qed.

Lemma online_pairing_witness :
  clientOnline (mgr (final w_fresh example_worlds)) = 1.
Proof.
  rewrite (online_pairing example_trace w_fresh example_worlds).
  - vm_compute. reflexivity.
  - exact example_trace_runs.
  - vm_compute. split; easy.
Defined.

Lemma maxOnline_watermark_witness :
  maxOnline (mgr (final w_fresh example_worlds)) = 2.
Proof.
  rewrite (maxOnline_watermark example_trace w_fresh example_worlds).
  - vm_compute. reflexivity.
  - exact example_trace_runs.
  - repeat constructor.
  - vm_compute. easy.
  - vm_compute. easy.
  - vm_compute. reflexivity.
Defined.

Lemma ClientSignIn_heap id uid_ device order client c w w' :
  slot id 0 w = Some client ->
  heap w !! client = Some c ->
  ClientSignIn id uid_ device order w = Returns (None, w') ->
  (exists c', heap w' !! client = Some c'
              /\ c_uid c' = uid_ /\ c_device c' = device)
  /\ forall r, r ≠ client -> slot uid_ device w ≠ Some r ->
       status <$> heap w' !! r = status <$> heap w !! r.
Proof.
  intros Hs Hc Hr.
  destruct (ClientSignIn_sessions_aux id uid_ device order client c w Hs Hc)
    as [Hcl Hst].
  rewrite (ClientSignIn_found _ _ _ _ _ _ Hs) in Hr. injection Hr as <-.
  by split.
Qed.

Lemma only_heap_conn w w' :
  only_heap w w' -> conn_enter w' = conn_enter w /\ conn_exit w' = conn_exit w.
Proof. unfold only_heap. intros ->. done. Qed.

Lemma evict_conn uid_ device existing w :
  conn_enter (evict uid_ device existing w) = conn_enter w
  /\ conn_exit (evict uid_ device existing w) = conn_exit w.
Proof.
  set (w1 := call existing (SetID (temp_ids w (temp_issued w)) 0) (GenTemp w).2).
  change (evict uid_ device existing w) with
    (with_clients (clients.on_devices uid_ (devices.remove device))
       (call existing Exit (send existing kick_out_msg w1).2)).
  destruct (only_heap_conn _ _ (send_only_heap existing kick_out_msg w1))
    as [He Hx].
  simpl. by rewrite He, Hx.
Qed.

Lemma take_slot_conn uid_ device client order w :
  conn_enter (take_slot uid_ device client order w) = conn_enter w
  /\ conn_exit (take_slot uid_ device client order w) = conn_exit w.
Proof.
  unfold take_slot.
  destruct (clients.get uid_ (registry w)) as [logged|]; [|done].
  case_decide; [|done].
  set (w1 := match devices.get device logged with
             | Some existing => evict uid_ device existing w
             | None => w
             end).
  assert (Hw1 : conn_enter w1 = conn_enter w /\ conn_exit w1 = conn_exit w).
  { subst w1. destruct (devices.get device logged);
      [apply evict_conn | done]. }
  change (conn_enter (with_clients ?f ?w0)) with (conn_enter w0).
  change (conn_exit (with_clients ?f ?w0)) with (conn_exit w0).
  case_decide; [|done].
  unfold EnqueueMessage_pkg.
  destruct (only_heap_conn _ _
              (EnqueueMessage_frame uid_ 0 (account_login_msg device) order w1))
    as [He Hx].
  rewrite He, Hx. exact Hw1.
Qed.

Lemma count_sign_in_conn w :
  conn_enter (count_sign_in w) = conn_enter w
  /\ conn_exit (count_sign_in w) = conn_exit w.
Proof. unfold count_sign_in. simpl. by case_decide. Qed.

Lemma step_conn op w w' :
  step op w = Returns w' ->
  conn_enter w' = (if is_connect op then S (conn_enter w) else conn_enter w)
  /\ conn_exit w'
     = (if logout_found op w then S (conn_exit w) else conn_exit w).
Proof.
  destruct op as [conn|uid cs|id uid device order|uid device];
    cbn [step is_connect logout_found].
  - by intros [= <-].
  - by intros [= <-].
  - destruct (ClientSignIn id uid device order w) as [[e w1]|] eqn:Hr; [|done].
    intros [= <-].
    destruct (ClientSignIn_returns _ _ _ _ _ _ Hr)
      as [[Hg [= -> ->]]|(client & Hg & Hs)]; [done|].
    rewrite (ClientSignIn_found _ _ _ _ _ _ Hs) in Hr. injection Hr as _ <-.
    destruct (count_sign_in_conn
                (with_clients (clients.delete id 0)
                   (call client (SetID uid device)
                      (take_slot uid device client order w)))) as [-> ->].
    apply take_slot_conn.
  - intros [= <-].
    change (bool_decide _) with (logout_found (OpLogout uid device) w).
    rewrite logout_found_slot.
    destruct (slot uid device w) as [s|] eqn:Hs.
    + rewrite bool_decide_eq_true_2 by eauto.
      by rewrite (ClientLogout_found _ _ _ _ Hs).
    + rewrite bool_decide_eq_false_2 by (by intros []%is_Some_None).
      by rewrite (ClientLogout_not_found _ _ _ Hs).
Qed.

(** X17: over a trace that runs to its end, [statistics.SConnEnter] is
    called once for each [ClientConnected] and [statistics.SConnExit] once
    for each sign-out that found its slot, and at no other point: a session
    evicted by a sign-in, or one that never signs out, is not counted as
    closed. *)
Theorem statistics_pairing tr w ws :
  run tr w = Some ws ->
  Z.of_nat (conn_enter (final w ws))
  = Z.of_nat (conn_enter w) + count (fun op _ => is_connect op) tr w
  /\ Z.of_nat (conn_exit (final w ws))
     = Z.of_nat (conn_exit w) + sign_outs tr w.
Proof.
  unfold sign_outs. revert w ws.
  induction tr as [|op tr IH]; intros w ws Hrun.
  - injection Hrun as <-. unfold final. cbn [count last default]. lia.
  - apply run_cons in Hrun as (w1 & ws1 & Hstep & Hrun & ->).
    rewrite final_cons. cbn [count]. rewrite Hstep.
    destruct (IH _ _ Hrun) as [-> ->].
    destruct (step_conn _ _ _ Hstep) as [-> ->].
    destruct (is_connect op), (logout_found op w); lia.
Qed.

Lemma statistics_pairing_witness :
  conn_enter (final w_fresh example_worlds) = 2%nat
  /\ conn_exit (final w_fresh example_worlds) = 1%nat.
Proof.
  destruct (statistics_pairing example_trace w_fresh example_worlds
              example_trace_runs) as [He Hx].
  split; apply Nat2Z.inj.
  - rewrite He. vm_compute. reflexivity.
  - rewrite Hx. vm_compute. reflexivity.
Defined.

(** X18: [maxOnline] never falls: every world a trace goes through has a
    [maxOnline] at least as large as the one the trace started with. *)
Theorem maxOnline_never_falls tr w ws :
  run tr w = Some ws ->
  forall w', w' ∈ ws -> maxOnline (mgr w) <= maxOnline (mgr w').
Proof.
  revert w ws. induction tr as [|op tr IH]; intros w ws Hrun w' Hin.
  - injection Hrun as <-. by apply elem_of_nil in Hin.
  - apply run_cons in Hrun as (w1 & ws1 & Hstep & Hrun & ->).
    assert (Hle : maxOnline (mgr w) <= maxOnline (mgr w1)).
    { destruct (step_counters _ _ _ Hstep)
        as [[_ ->]|[(_ & _ & ->)|[[_ ->]|[_ ->]]]]; lia. }
    apply elem_of_cons in Hin as [->|Hin]; [done|].
    pose proof (IH _ _ Hrun _ Hin). lia.
Qed.

Lemma maxOnline_never_falls_witness :
  0 <= maxOnline (mgr (final w_fresh example_worlds)).
Proof.
  change 0 with (maxOnline (mgr w_fresh)).
  apply (maxOnline_never_falls example_trace w_fresh example_worlds
           example_trace_runs).
  vm_compute. apply list_elem_of_In. do 5 right. left. reflexivity.
Defined.

Lemma step_no_empty op w w' :
  step op w = Returns w' -> is_logout op = false ->
  no_empty_devices (registry w) -> no_empty_devices (registry w').
Proof.
  destruct op as [conn|uid cs|id uid device order|uid device];
    cbn [step is_logout]; [| | |done].
  - intros [= <-] _. apply ClientConnected_no_empty.
  - intros [= <-] _. apply AddClient_no_empty.
  - destruct (ClientSignIn id uid device order w) as [[e w1]|] eqn:Hr; [|done].
    intros [= <-] _. by eapply ClientSignIn_no_empty.
Qed.

(** X19: I5 along the traces without a sign-out: when no user entry maps
    to an empty device set at the start, none does in any world that a
    trace of [ClientConnected], [AddClient] and [ClientSignIn] goes
    through. *)
Theorem no_empty_without_logout tr w ws :
  run tr w = Some ws ->
  Forall (fun op => is_logout op = false) tr ->
  no_empty_devices (registry w) ->
  forall w', w' ∈ ws -> no_empty_devices (registry w').
Proof.
  revert w ws. induction tr as [|op tr IH]; intros w ws Hrun Hops Hinv w' Hin.
  - injection Hrun as <-. by apply elem_of_nil in Hin.
  - apply run_cons in Hrun as (w1 & ws1 & Hstep & Hrun & ->).
    apply Forall_cons in Hops as [Hop Hops].
    pose proof (step_no_empty _ _ _ Hstep Hop Hinv) as Hinv1.
    apply elem_of_cons in Hin as [->|Hin]; [done|].
    by eapply IH.
Qed.

Lemma login_trace_runs : run login_trace w_fresh = Some login_worlds.
Proof. vm_compute. reflexivity. Qed.

Lemma final_in w w1 ws : final w (w1 :: ws) ∈ w1 :: ws.
Proof.
  unfold final. destruct (last (w1 :: ws)) as [w'|] eqn:Hl; simpl.
  - apply list_elem_of_lookup. rewrite last_lookup in Hl. eauto.
  - by apply last_None in Hl.
Qed.

Lemma no_empty_without_logout_witness :
  no_empty_devices (registry (final w_fresh login_worlds)).
Proof.
  apply (no_empty_without_logout login_trace w_fresh login_worlds
           login_trace_runs).
  - repeat constructor.
  - intros uid ds. change (registry w_fresh) with (∅ : gmap Z (gmap Z nat)).
    by rewrite lookup_empty.
  - change login_worlds
      with (default [] (run login_trace w_fresh)).
    rewrite login_trace_runs. simpl.
    destruct login_worlds as [|w1 ws] eqn:Hws; [|apply final_in].
    pose proof login_trace_runs as Hr. rewrite Hws in Hr. discriminate Hr.
Defined.

(** ** Registered sessions carry the identity of their slot *)

Lemma consistent_unique w u d u' d' s :
  consistent w -> slot u d w = Some s -> slot u' d' w = Some s ->
  u = u' /\ d = d'.
Proof.
  intros Hc (c & Hh & <- & <-)%Hc (c' & Hh' & <- & <-)%Hc.
  by assert (c' = c) as -> by congruence.
Qed.

Lemma ClientConnected_consistent conn w :
  consistent w -> consistent (ClientConnected conn w).2.
Proof.
  intros Hc u d s.
  destruct (ClientConnected_effect_aux conn w) as (Hslot & Hheap).
  rewrite Hslot, Hheap. case_decide as Hn.
  - destruct Hn as [-> ->]. intros [= <-].
    eexists. split; [apply list_lookup_middle; done|done].
  - intros (c & Hh & Hid)%Hc. exists c. split; [|done].
    by apply lookup_app_l_Some.
Qed.

Lemma ClientLogout_slot_of uid device s w :
  slot uid device w = Some s ->
  forall u d,
    slot u d (ClientLogout uid device w).2
    = if decide (u = uid /\ d = device) then None else slot u d w.
Proof.
  intros Hs u d. rewrite (ClientLogout_found _ _ _ _ Hs), !slot_slot_of.
  apply slot_of_remove.
Qed.

Lemma ClientLogout_heap_ne uid device s w s' :
  slot uid device w = Some s -> s' ≠ s ->
  heap (ClientLogout uid device w).2 !! s' = heap w !! s'.
Proof.
  intros Hs Hne. rewrite (ClientLogout_found _ _ _ _ Hs). simpl.
  by rewrite !list_lookup_alter_ne by done.
Qed.

Lemma ClientLogout_consistent uid device w :
  consistent w -> consistent (ClientLogout uid device w).2.
Proof.
  intros Hc. destruct (slot uid device w) as [s|] eqn:Hs.
  2:{ by rewrite (ClientLogout_not_found _ _ _ Hs). }
  intros u d s'. rewrite (ClientLogout_slot_of _ _ _ _ Hs).
  case_decide as Hn; [done|]. intros Hs'.
  assert (s' ≠ s) as Hne.
  { intros ->. apply Hn. by eapply consistent_unique. }
  rewrite (ClientLogout_heap_ne _ _ _ _ _ Hs Hne). by apply Hc.
Qed.

Lemma ClientSignIn_consistent id uid_ device order w e w' :
  ClientSignIn id uid_ device order w = Returns (e, w') ->
  consistent w -> consistent w'.
Proof.
  intros Hr Hc.
  destruct (ClientSignIn_returns _ _ _ _ _ _ Hr)
    as [[_ [= -> ->]]|(client & _ & Hs)]; [done|].
  assert (e = None) as ->.
  { rewrite (ClientSignIn_found _ _ _ _ _ _ Hs) in Hr. by injection Hr. }
  destruct (Hc _ _ _ Hs) as (c & Hh & Hcu & Hcd).
  destruct (ClientSignIn_heap _ _ _ _ _ _ _ _ Hs Hh Hr) as [Hcl Hst].
  intros u d s. rewrite (ClientSignIn_slot_of _ _ _ _ _ _ _ Hs Hr).
  case_decide as H0; [done|]. case_decide as H1.
  - destruct H1 as [-> ->]. by intros [= <-].
  - intros Hs'. destruct (Hc _ _ _ Hs') as (c1 & Hh1 & Hu1 & Hd1).
    assert (s ≠ client) as Hne.
    { intros ->. apply H0. by eapply consistent_unique. }
    assert (slot uid_ device w ≠ Some s) as Hne'.
    { intros He. apply H1. by eapply consistent_unique. }
    specialize (Hst s Hne Hne'). rewrite Hh1 in Hst.
    destruct (heap w' !! s) as [c2|]; [|done].
    exists c2. split; [done|].
    unfold status in Hst. simpl in Hst. injection Hst as -> -> _. done.
Qed.

Lemma step_consistent op w w' :
  step op w = Returns w' -> is_add op = false ->
  consistent w -> consistent w'.
Proof.
  destruct op as [conn|uid cs|id uid device order|uid device];
    cbn [step is_add]; [|done| |].
  - intros [= <-] _. apply ClientConnected_consistent.
  - destruct (ClientSignIn id uid device order w) as [[e w1]|] eqn:Hr; [|done].
    intros [= <-] _. by eapply ClientSignIn_consistent.
  - intros [= <-] _. apply ClientLogout_consistent.
Qed.

Lemma run_consistent tr w ws :
  run tr w = Some ws ->
  Forall (fun op => is_add op = false) tr ->
  consistent w ->
  forall w', w' ∈ ws -> consistent w'.
Proof.
  revert w ws. induction tr as [|op tr IH]; intros w ws Hrun Hops Hinv w' Hin.
  - injection Hrun as <-. by apply elem_of_nil in Hin.
  - apply run_cons in Hrun as (w1 & ws1 & Hstep & Hrun & ->).
    apply Forall_cons in Hops as [Hop Hops].
    pose proof (step_consistent _ _ _ Hstep Hop Hinv) as Hinv1.
    apply elem_of_cons in Hin as [->|Hin]; [done | by eapply IH].
Qed.

Lemma consistent_fresh now ids : consistent (fresh now ids).
Proof.
  intros u d s Hs. unfold slot, registry in Hs. simpl in Hs.
  unfold clients.newClients in Hs. by rewrite lookup_empty in Hs.
Qed.

Lemma login_worlds_consistent : consistent (final w_fresh login_worlds).
Proof.
  apply (run_consistent login_trace w_fresh login_worlds login_trace_runs).
  - repeat constructor.
  - apply consistent_fresh.
  - destruct login_worlds as [|w1 ws] eqn:Hws; [|apply final_in].
    pose proof login_trace_runs as Hr. rewrite Hws in Hr. discriminate Hr.
Qed.

(** X20: along the traces without [AddClient], every registered session
    carries the identity of its slot: when that holds at the start (as on
    a fresh manager), then in every world the trace goes through the
    session in a slot [(uid, device)] has the identity [(uid, device)], and
    so no session is registered in two slots. *)
Theorem consistent_without_AddClient tr w ws :
  run tr w = Some ws ->
  Forall (fun op => is_add op = false) tr ->
  consistent w ->
  forall w', w' ∈ ws ->
    consistent w'
    /\ forall u d u' d' s,
         slot u d w' = Some s -> slot u' d' w' = Some s -> u = u' /\ d = d'.
Proof.
  intros Hrun Hops Hinv w' Hin.
  pose proof (run_consistent _ _ _ Hrun Hops Hinv _ Hin) as Hc.
  split; [done|]. intros u d u' d' s. by apply consistent_unique.
Qed.

Lemma consistent_without_AddClient_witness :
  consistent (final w_fresh example_worlds).
Proof.
  apply (consistent_without_AddClient example_trace w_fresh example_worlds
           example_trace_runs).
  - repeat constructor.
  - apply consistent_fresh.
  - destruct example_worlds as [|w1 ws] eqn:Hws; [|apply final_in].
    pose proof example_trace_runs as Hr. rewrite Hws in Hr. discriminate Hr.
Defined.

(** ** Delivery *)

Lemma send_heap_ne r msg w s :
  r ≠ s -> heap (send r msg w).2 !! s = heap w !! s.
Proof.
  intros Hne. unfold send. destruct (heap w !! r); [|done].
  simpl. by rewrite list_lookup_alter_ne.
Qed.

Lemma broadcast_untouched order msg ds e w s :
  (forall k, k ∈ order -> ds !! k ≠ Some s) ->
  heap (devices.foreach order (deliver 0 msg) ds (e, w)).2 !! s = heap w !! s.
Proof.
  unfold devices.foreach. revert e w.
  induction order as [|k order IH]; intros e w Hs; [done|].
  cbn [fold_left].
  assert (Hrest : forall k', k' ∈ order -> ds !! k' ≠ Some s)
    by (intros k' Hk'; apply Hs; by right).
  destruct (ds !! k) as [c|] eqn:Hk; [|by apply IH].
  assert (c ≠ s) as Hne.
  { intros ->. apply (Hs k); [by left | done]. }
  rewrite deliver_broadcast.
  destruct (is_closed c w); [by apply IH|].
  pose proof (send_heap_ne c msg w s Hne) as Hsend.
  destruct (send c msg w) as [e1 w1]. simpl in Hsend.
  rewrite (IH e1 w1 Hrest). exact Hsend.
Qed.

Lemma EnqueueMessage_broadcast uid msg order ds w :
  clients.get uid (registry w) = Some ds ->
  EnqueueMessage uid 0 msg order w
  = devices.foreach order (deliver 0 msg) ds
      (None, with_messageSent (fun x => add64 x 1) w).
Proof.
  intros Hg. unfold EnqueueMessage. cbv zeta.
  change (registry (with_messageSent (fun x => add64 x 1) w)) with (registry w).
  rewrite Hg. rewrite decide_False by (by eapply get_size).
  by rewrite decide_False by (by intros ?).
Qed.

Lemma example_visits : devices.visits [1; 2] example_devices.
Proof.
  split.
  - apply (bool_decide_unpack _). vm_compute. reflexivity.
  - intros k. unfold example_devices.
    rewrite !lookup_insert_is_Some, lookup_empty, !elem_of_cons, elem_of_nil.
    split.
    + intros [->|[->|[]]]; [by left | right; split; [done | by left]].
    + intros [->|[_ [->|[_ []%is_Some_None]]]]; auto.
Qed.

Lemma example_get :
  clients.get 5001 (registry w_device1_lost) = Some example_devices.
Proof. vm_compute. reflexivity. Qed.

(** X21: a broadcast [EnqueueMessage(uid, 0, m)] to a user with devices,
    in whatever order the devices are visited: every device whose session
    is open has accepted [m] afterwards, a session that reports closed is
    left as it was, and so is every session that is not registered under
    [uid]; no session opens or closes. *)
Theorem EnqueueMessage_fan_out uid msg order ds w :
  clients.get uid (registry w) = Some ds ->
  devices.visits order ds ->
  let r := EnqueueMessage uid 0 msg order w in
  (forall device s, ds !! device = Some s -> is_closed s w = false ->
     received msg s r.2)
  /\ (forall s, is_closed s w = true -> heap r.2 !! s = heap w !! s)
  /\ (forall s, (forall device, ds !! device ≠ Some s) ->
        heap r.2 !! s = heap w !! s)
  /\ (forall s, is_closed s r.2 = is_closed s w).
Proof.
  intros Hg [_ Hin] r. subst r. rewrite (EnqueueMessage_broadcast _ _ _ _ _ Hg).
  set (w0 := with_messageSent (fun x => add64 x 1) w).
  destruct (broadcast_sessions order msg ds None w0) as (H1 & H2 & _ & H4).
  split; [|split; [|split]].
  - intros device s Hd Hcl. apply (H4 device); [|done..].
    apply Hin. eauto.
  - intros s Hcl. by rewrite H2.
  - intros s Hs. rewrite broadcast_untouched; [done|]. intros k _. apply Hs.
  - intros s. by rewrite H1.
Qed.

Lemma EnqueueMessage_fan_out_witness :
  received hello 1%nat (EnqueueMessage 5001 0 hello [1; 2] w_device1_lost).2
  /\ heap (EnqueueMessage 5001 0 hello [1; 2] w_device1_lost).2 !! 0%nat
     = heap w_device1_lost !! 0%nat.
Proof.
  destruct (EnqueueMessage_fan_out 5001 hello [1; 2] example_devices
              w_device1_lost example_get example_visits)
    as (Hopen & Hclosed & _).
  split.
  - apply (Hopen 2); vm_compute; reflexivity.
  - apply Hclosed. vm_compute. reflexivity.
Defined.

(** X22: the result of a broadcast [EnqueueMessage(uid, 0, m)] is the one
    of the device visited last: [ErrClientClosed] when its session reports
    closed and the result of its delivery (nil for an open session)
    otherwise, whatever happened at the devices visited before. *)
Theorem EnqueueMessage_last_decides uid msg order k s ds w :
  clients.get uid (registry w) = Some ds ->
  ds !! k = Some s ->
  (EnqueueMessage uid 0 msg (order ++ [k]) w).1
  = if is_closed s w then Some ErrClientClosed else None.
Proof.
  intros Hg Hk. rewrite (EnqueueMessage_broadcast _ _ _ _ _ Hg).
  by rewrite (broadcast_result order k s msg ds None _ Hk).
Qed.

Lemma EnqueueMessage_last_decides_witness :
  (EnqueueMessage 5001 0 hello ([2] ++ [1]) w_device1_lost).1
  = Some ErrClientClosed.
Proof.
  rewrite (EnqueueMessage_last_decides 5001 hello [2] 1 0%nat example_devices
             w_device1_lost example_get); [|vm_compute; reflexivity].
  vm_compute. reflexivity.
Defined.

(** X23: [EnqueueMessage(uid, device, m)] for a registered device other
    than 0 hands [m] to the session of that device only and returns what
    that session returns: no other session changes, not even the other
    devices of the user, and an open session has accepted [m]
    afterwards. *)
Theorem EnqueueMessage_one_device uid device msg order d w :
  device ≠ 0 ->
  slot uid device w = Some d ->
  let r := EnqueueMessage uid device msg order w in
  r.1 = (send d msg w).1
  /\ (forall s, s ≠ d -> heap r.2 !! s = heap w !! s)
  /\ (is_closed d w = false -> r.1 = None /\ received msg d r.2).
Proof.
  intros Hdev (ds & Hg & Hd)%slot_get r.
  assert (Hr : r = send d msg (with_messageSent (fun x => add64 x 1) w)).
  { subst r. unfold EnqueueMessage. cbv zeta.
    change (registry (with_messageSent (fun x => add64 x 1) w))
      with (registry w).
    rewrite Hg. rewrite decide_False by (by eapply get_size).
    rewrite decide_True by done. unfold devices.get. by rewrite Hd. }
  rewrite Hr. split; [|split].
  - unfold send. simpl. by destruct (heap w !! d).
  - intros s Hne. by rewrite send_heap_ne.
  - intros Hcl. by apply send_open.
Qed.

Lemma EnqueueMessage_one_device_witness :
  (2 ≠ 0 /\ slot 5001 2 w_device1_lost = Some 1%nat)
  /\ (EnqueueMessage 5001 2 hello [] w_device1_lost).1 = None
  /\ heap (EnqueueMessage 5001 2 hello [] w_device1_lost).2 !! 0%nat
     = heap w_device1_lost !! 0%nat.
Proof.
  assert (Hs : slot 5001 2 w_device1_lost = Some 1%nat)
    by (vm_compute; reflexivity).
  assert (Hd : 2 ≠ 0) by lia.
  split; [by split|].
  destruct (EnqueueMessage_one_device 5001 2 hello [] 1%nat w_device1_lost
              Hd Hs) as (_ & Hothers & Hopen).
  split.
  - apply Hopen. vm_compute. reflexivity.
  - apply Hothers. lia.
Defined.

(** ** Sampling the registered sessions *)

Lemma first_device_registered inner ds d :
  first_device inner ds = Some d -> exists k, ds !! k = Some d.
Proof.
  unfold first_device. intros Hh%head_Some_elem_of.
  apply list_elem_of_omap in Hh as (k & _ & Hk). eauto.
Qed.

Lemma getClient_loop_length IsTempId count inner w outer ct ret :
  (length (getClient_loop IsTempId count inner w outer ct ret)
   <= length ret + Z.to_nat (Z.max 1 (count - ct)))%nat.
Proof.
  revert ct ret. induction outer as [|id outer IH]; intros ct ret;
    cbn [getClient_loop]; [lia|].
  destruct (registry w !! id) as [ds|]; [|apply IH].
  destruct (IsTempId id); [apply IH|].
  set (ret' := match first_device (inner id) ds ≫= fun d => heap w !! d with
               | Some c => ret ++ [GetInfo c]
               | None => ret
               end).
  assert (length ret' <= length ret + 1)%nat as Hlen.
  { subst ret'. destruct (_ ≫= _); [rewrite length_app; simpl|]; lia. }
  case_decide as Hct; [lia|].
  specialize (IH (ct + 1) ret'). lia.
Qed.

Lemma getClient_loop_from IsTempId count inner w outer ct ret i :
  i ∈ getClient_loop IsTempId count inner w outer ct ret ->
  i ∈ ret
  \/ exists uid device s c,
       IsTempId uid = false /\ slot uid device w = Some s
       /\ heap w !! s = Some c /\ i = GetInfo c.
Proof.
  revert ct ret. induction outer as [|id outer IH]; intros ct ret;
    cbn [getClient_loop]; [by left|].
  destruct (registry w !! id) as [ds|] eqn:Hg; [|apply IH].
  destruct (IsTempId id) eqn:Ht; [apply IH|].
  set (ret' := match first_device (inner id) ds ≫= fun d => heap w !! d with
               | Some c => ret ++ [GetInfo c]
               | None => ret
               end).
  assert (Hret' : i ∈ ret' ->
            i ∈ ret
            \/ exists uid device s c,
                 IsTempId uid = false /\ slot uid device w = Some s
                 /\ heap w !! s = Some c /\ i = GetInfo c).
  { subst ret'.
    destruct (first_device (inner id) ds) as [d|] eqn:Hf; simpl; [|by left].
    destruct (heap w !! d) as [c|] eqn:Hc; [|by left].
    intros [Hi|Hi%list_elem_of_singleton]%elem_of_app; [by left|].
    right. apply first_device_registered in Hf as [k Hk].
    exists id, k, d, c. repeat split; try done.
    unfold slot, devices.get. by rewrite Hg. }
  case_decide; [done|].
  intros [Hi|Hi]%IH; [by apply Hret' | by right].
Qed.

(** X24: [getClient(count)] returns at most [count] snapshots, and at most
    one when [count] is below one (the bound is tested after the first
    user was sampled); each of them is the snapshot of a session registered
    under a user that is not temporary. Where the registered sessions
    carry the identity of their slot, each snapshot names an occupied
    slot. *)
Theorem getClient_sample IsTempId count outer inner w :
  (length (getClient IsTempId count outer inner w)
   <= Z.to_nat (Z.max 1 count))%nat
  /\ (forall i, i ∈ getClient IsTempId count outer inner w ->
        exists uid device s c,
          IsTempId uid = false /\ slot uid device w = Some s
          /\ heap w !! s = Some c /\ i = GetInfo c)
  /\ (consistent w ->
      forall i, i ∈ getClient IsTempId count outer inner w ->
        IsTempId (info_uid i) = false
        /\ is_Some (slot (info_uid i) (info_device i) w)).
Proof.
  assert (Hfrom : forall i, i ∈ getClient IsTempId count outer inner w ->
            exists uid device s c,
              IsTempId uid = false /\ slot uid device w = Some s
              /\ heap w !! s = Some c /\ i = GetInfo c).
  { intros i [Hi|Hi]%getClient_loop_from; [|done]. by apply elem_of_nil in Hi. }
  split; [|split; [exact Hfrom|]].
  - pose proof (getClient_loop_length IsTempId count inner w outer 0 []) as H.
    unfold getClient. simpl in H. by rewrite Z.sub_0_r in H.
  - intros Hc i (uid & device & s & c & Ht & Hs & Hh & ->)%Hfrom.
    destruct (Hc _ _ _ Hs) as (c' & Hh' & Hu & Hd).
    assert (c' = c) as -> by congruence.
    simpl. rewrite Hu, Hd. eauto.
Qed.

Lemma getClient_sample_witness :
  getClient (fun id => bool_decide (1000000 <= id)) 1 [5001]
    (fun _ => [1]) (final w_fresh login_worlds) = [mkInfo 5001 1]
  /\ is_Some (slot 5001 1 (final w_fresh login_worlds)).
Proof.
  assert (Hg : getClient (fun id => bool_decide (1000000 <= id)) 1 [5001]
                 (fun _ => [1]) (final w_fresh login_worlds)
               = [mkInfo 5001 1]) by (vm_compute; reflexivity).
  split; [exact Hg|].
  destruct (getClient_sample (fun id => bool_decide (1000000 <= id)) 1 [5001]
              (fun _ => [1]) (final w_fresh login_worlds)) as (_ & _ & Hc).
  apply (Hc login_worlds_consistent (mkInfo 5001 1)).
  rewrite Hg. by apply list_elem_of_singleton.
Defined.

(** ** The test requests *)

(** X25: [TestSignOut] acts on device 2 of the user only. After a
    [TestLogin] that found the connection's session in slot [(id, 0)] and
    asked for a device other than 2, a [TestSignOut] for that user returns
    nil and leaves the session registered at [(uid, device)] (unless the
    login was onto the slot [(id, 0)] itself, which the login empties);
    when the user had no session on device 2 before the login, the
    [TestSignOut] changes nothing at all. *)
Theorem TestSignOut_other_device id request order c w :
  slot id 0 w = Some c ->
  Device request ≠ 2 ->
  exists w1,
    TestLogin id request order w = Returns (None, w1)
    /\ (TestSignOut (Uid request) w1).1 = None
    /\ (~ (Uid request = id /\ Device request = 0) ->
        slot (Uid request) (Device request) w1 = Some c
        /\ slot (Uid request) (Device request)
             (TestSignOut (Uid request) w1).2 = Some c)
    /\ (slot (Uid request) 2 w = None ->
        TestSignOut (Uid request) w1 = (None, w1)).
Proof.
  intros Hs Hdev.
  pose proof (ClientSignIn_found id (Uid request) (Device request) order c w Hs)
    as Hr.
  pose proof (ClientSignIn_slot_of _ _ _ _ _ _ _ Hs Hr) as Hslots.
  unfold TestLogin. rewrite Hr.
  set (w1 := count_sign_in _) in *. exists w1. split; [done|].
  unfold TestSignOut. cbn [fst snd]. split; [done|]. split.
  - intros Hn.
    assert (Hin : slot (Uid request) (Device request) w1 = Some c).
    { rewrite Hslots.
      rewrite decide_False by (intros [? ?]; by apply Hn).
      by rewrite decide_True. }
    split; [exact Hin|].
    destruct (slot (Uid request) 2 w1) as [s|] eqn:H2.
    + rewrite (ClientLogout_slot_of _ _ _ _ H2).
      by rewrite decide_False by (by intros [_ ?]).
    + by rewrite (ClientLogout_not_found _ _ _ H2).
  - intros Hfree. rewrite ClientLogout_not_found; [done|].
    rewrite Hslots. rewrite decide_False by (intros [_ ?]; lia).
    by rewrite decide_False by (by intros [_ ?]).
Qed.

Lemma TestSignOut_other_device_witness :
  (slot 1000000 0 w_connected = Some 0%nat
   /\ slot 5001 2 w_connected = None) /\
  exists w1,
    TestLogin 1000000 (mkTestLoginRequest 5001 1) [] w_connected
    = Returns (None, w1)
    /\ TestSignOut 5001 w1 = (None, w1)
    /\ slot 5001 1 (TestSignOut 5001 w1).2 = Some 0%nat.
Proof.
  assert (Hs : slot 1000000 0 w_connected = Some 0%nat)
    by (vm_compute; reflexivity).
  assert (Hf : slot 5001 2 w_connected = None) by (vm_compute; reflexivity).
  split; [by split|].
  destruct (TestSignOut_other_device 1000000 (mkTestLoginRequest 5001 1) []
              0%nat w_connected Hs ltac:(simpl; lia))
    as (w1 & Hr & _ & Hstay & Hnoop).
  exists w1. split; [exact Hr|]. split; [exact (Hnoop Hf)|].
  apply Hstay. simpl. lia.
Defined.

(** X26: a connection that signs in through [TestLogin] on device 2 is
    signed out by the [TestSignOut] of its user: the slot is empty again,
    the session has a fresh temporary identity and a request to terminate,
    and [online] is back where it was (one added, one taken). *)
Theorem TestSignOut_after_TestLogin id request order c c0 w :
  slot id 0 w = Some c ->
  heap w !! c = Some c0 ->
  Device request = 2 ->
  exists w1,
    TestLogin id request order w = Returns (None, w1)
    /\ slot (Uid request) 2 w1 = Some c
    /\ (TestSignOut (Uid request) w1).1 = None
    /\ slot (Uid request) 2 (TestSignOut (Uid request) w1).2 = None
    /\ status <$> heap (TestSignOut (Uid request) w1).2 !! c
       = Some (temp_ids w1 (temp_issued w1), 0, true)
    /\ clientOnline (mgr (TestSignOut (Uid request) w1).2)
       = add64 (add64 (clientOnline (mgr w)) 1) (-1).
Proof.
  intros Hs Hh Hdev.
  pose proof (ClientSignIn_found id (Uid request) (Device request) order c w Hs)
    as Hr.
  pose proof (ClientSignIn_slot_of _ _ _ _ _ _ _ Hs Hr) as Hslots.
  destruct (ClientSignIn_heap _ _ _ _ _ _ _ _ Hs Hh Hr)
    as [(c1 & Hh1 & _) _].
  destruct (ClientSignIn_counters _ _ _ _ _ _ _ Hs Hr) as [Hon _].
  unfold TestLogin. rewrite Hr.
  set (w1 := count_sign_in _) in *. exists w1. split; [done|].
  assert (Hin : slot (Uid request) 2 w1 = Some c).
  { rewrite Hslots. rewrite decide_False by (intros [_ ?]; lia).
    by rewrite decide_True by (by rewrite Hdev). }
  split; [exact Hin|]. unfold TestSignOut. cbn [fst snd].
  split; [done|].
  split; [by eapply ClientLogout_slot_gone|].
  split.
  - by rewrite (ClientLogout_session _ _ _ _ _ Hin Hh1).
  - by rewrite (ClientLogout_online _ _ _ _ Hin), Hon.
Qed.

Lemma TestSignOut_after_TestLogin_witness :
  (slot 1000000 0 w_connected = Some 0%nat
   /\ heap w_connected !! 0%nat
      = Some (mkClient 7%nat 1000000 0 true false false [])) /\
  exists w1,
    TestLogin 1000000 (mkTestLoginRequest 5001 2) [] w_connected
    = Returns (None, w1)
    /\ slot 5001 2 (TestSignOut 5001 w1).2 = None
    /\ clientOnline (mgr (TestSignOut 5001 w1).2) = 0.
Proof.
  assert (Hs : slot 1000000 0 w_connected = Some 0%nat)
    by (vm_compute; reflexivity).
  assert (Hh : heap w_connected !! 0%nat
               = Some (mkClient 7%nat 1000000 0 true false false []))
    by (vm_compute; reflexivity).
  split; [by split|].
  destruct (TestSignOut_after_TestLogin 1000000 (mkTestLoginRequest 5001 2) []
              0%nat _ w_connected Hs Hh eq_refl)
    as (w1 & Hr & _ & _ & Hgone & _ & Hon).
  exists w1. split; [exact Hr|]. split; [exact Hgone|].
  etrans; [exact Hon|]. vm_compute. reflexivity.
Defined.

(** ** Sign-in of a first device, and delivery around connect and sign-out *)

(** X27: when the user has no registered device, [ClientSignIn] takes the
    single-device branch: it generates no identifier, sends no message and
    calls nothing on any session but the one it signs in. *)
Theorem ClientSignIn_first_device id uid_ device order client w :
  slot id 0 w = Some client ->
  no_devices uid_ w ->
  exists w',
    ClientSignIn id uid_ device order w = Returns (None, w')
    /\ temp_issued w' = temp_issued w
    /\ messageSent (mgr w') = messageSent (mgr w)
    /\ heap w' = alter (SetID uid_ device) client (heap w).
Proof.
  intros Hs Hno%no_devices_get.
  eexists. split; [by apply ClientSignIn_found|].
  unfold take_slot. rewrite Hno.
  unfold count_sign_in. simpl. by case_decide.
Qed.

Lemma ClientSignIn_first_device_witness :
  slot 1000000 0 w_connected = Some 0%nat /\
  exists w',
    ClientSignIn 1000000 5001 1 [] w_connected = Returns (None, w')
    /\ temp_issued w' = 1%nat
    /\ messageSent (mgr w') = 0.
Proof.
  assert (Hs : slot 1000000 0 w_connected = Some 0%nat)
    by (vm_compute; reflexivity).
  split; [exact Hs|].
  destruct (ClientSignIn_first_device 1000000 5001 1 [] 0%nat w_connected Hs)
    as (w' & Hr & Ht & Hm & _).
  - intros d. vm_compute. reflexivity.
  - exists w'. split; [exact Hr|]. split; [by rewrite Ht | by rewrite Hm].
Defined.

(** X28: after the [ClientLogout] of the only device of a user, the user
    is offline for delivery although its entry is still in the registry:
    [isOnline] is false and every [EnqueueMessage] to the user returns
    [ErrClientNotExist]. *)
Theorem EnqueueMessage_after_logout uid device s w d msg order :
  registry w !! uid = Some {[ device := s ]} ->
  let w1 := (ClientLogout uid device w).2 in
  clients.contains uid (registry w1) = true
  /\ isOnline uid w1 = false
  /\ (EnqueueMessage uid d msg order w1).1 = Some ErrClientNotExist.
Proof.
  intros Hg w1.
  pose proof (ClientLogout_last_device _ _ _ _ Hg) as Hempty. fold w1 in Hempty.
  assert (Hget : clients.get uid (registry w1) = None)
    by (apply get_None; by right).
  split; [|split].
  - unfold clients.contains. apply bool_decide_eq_true_2. by rewrite Hempty.
  - unfold isOnline. by rewrite Hget.
  - unfold EnqueueMessage. cbv zeta.
    change (registry (with_messageSent (fun x => add64 x 1) w1))
      with (registry w1).
    by rewrite Hget.
Qed.

Lemma EnqueueMessage_after_logout_witness :
  registry w_signed_in !! 5001 = Some {[ 1 := 0%nat ]}
  /\ (EnqueueMessage 5001 1 hello [] (ClientLogout 5001 1 w_signed_in).2).1
     = Some ErrClientNotExist.
Proof.
  assert (Hg : registry w_signed_in !! 5001 = Some {[ 1 := 0%nat ]})
    by (vm_compute; reflexivity).
  split; [exact Hg|].
  by destruct (EnqueueMessage_after_logout 5001 1 0%nat w_signed_in 1 hello []
                 Hg) as (_ & _ & He).
Defined.

(** X29: a connection can be written to under its temporary identifier
    before it signs in: when the identifier that [ClientConnected]
    generates is not in the registry yet, a broadcast to it afterwards
    returns nil and the new session has accepted the message. *)
Theorem EnqueueMessage_after_connect conn msg w :
  registry w !! temp_ids w (temp_issued w) = None ->
  let T := (ClientConnected conn w).1 in
  let w1 := (ClientConnected conn w).2 in
  isDeviceOnline T 0 w1 = true
  /\ (EnqueueMessage T 0 msg [0] w1).1 = None
  /\ received msg (length (heap w)) (EnqueueMessage T 0 msg [0] w1).2.
Proof.
  intros Hfree T w1.
  destruct (ClientConnected_effect_aux conn w) as [Hslots Hheap].
  fold w1 in Hslots, Hheap.
  assert (Hreg : registry w1 !! T = Some {[ 0 := length (heap w) ]}).
  { unfold registry in *. unfold w1, T.
    rewrite ClientConnected_mgr, ClientConnected_id.
    change (clients_ (mgr (with_clients ?f w))) with (f (clients_ (mgr w))).
    rewrite add_lookup. unfold clients.deref. by rewrite Hfree. }
  assert (Hget : clients.get T (registry w1) = Some {[ 0 := length (heap w) ]}).
  { apply get_Some. split; [done|]. apply insert_non_empty. }
  assert (Hopen : is_closed (length (heap w)) w1 = false).
  { unfold is_closed. rewrite Hheap. by rewrite list_lookup_middle. }
  split.
  { unfold isDeviceOnline. rewrite Hget. apply bool_decide_eq_true_2.
    unfold devices.get. rewrite lookup_singleton_eq. eauto. }
  rewrite (EnqueueMessage_broadcast _ _ _ _ _ Hget).
  unfold devices.foreach. cbn [fold_left].
  rewrite lookup_singleton_eq, deliver_broadcast.
  change (is_closed (length (heap w))
            (with_messageSent (fun x => add64 x 1) w1))
    with (is_closed (length (heap w)) w1).
  rewrite Hopen.
  by apply (send_open (length (heap w)) msg
              (with_messageSent (fun x => add64 x 1) w1)).
Qed.

Lemma EnqueueMessage_after_connect_witness :
  registry w_fresh !! 1000000 = None
  /\ (EnqueueMessage 1000000 0 hello [0] w_connected).1 = None.
Proof.
  assert (Hf : registry w_fresh !! temp_ids w_fresh (temp_issued w_fresh)
               = None) by (vm_compute; reflexivity).
  split; [exact Hf|].
  by destruct (EnqueueMessage_after_connect 7%nat hello w_fresh Hf)
    as (_ & He & _).
Defined.
